(** * Meeting assistant: the pipeline of [meeting_assistant.py]

    A shallow embedding of the four LangGraph nodes ([asr_node],
    [minutes_taker_node], [summarizer_node], [writer_node]), of the graph
    assembled by [build_meeting_graph] and of [main].

    The program talks to the outside world (file system, the ASR HTTP
    service, the chat model, the clock).  Every such call is modelled as
    - an _event_ appended to a chronological trace, and
    - an answer read from an environment [Env] of oracles, one per kind of
      call; an oracle is indexed by the number of earlier calls of the same
      kind found in the trace, so that an endpoint can answer differently
      on each attempt (the "response sequence" of a poll).

    Effectful code lives in the monad [M A := Trace -> Result A * Trace];
    a Python exception is the [Raise] result, and the trace keeps the
    effects that happened before it was raised.

    Console output ([print]) only narrates progress on stdout; it is left
    out of the trace.  [Path.mkdir] and [Path.write_text] are recorded as
    events and taken to succeed. *)

From stdpp Require Import base gmap strings list fin_maps.
From Stdlib Require Import ZArith Lia.

Local Open Scope string_scope.
Local Open Scope list_scope.
Local Open Scope Z_scope.

(** ** Configuration constants (module level of the source) *)

Definition AUDIO_PATH : string := "./audio/Podcast_EP14_30s.wav".
Definition ASR_BASE : string := "https://3090api.huannago.com".
Definition ASR_CREATE_URL : string := ASR_BASE +:+ "/api/v1/subtitle/tasks".

(** ** Exceptions, events, results *)

Inductive Exn : Type :=
  | KeyError (key : string)
  | FileNotFoundError (path : string)
  | HTTPError (status_code : Z)
  | UploadError (msg : string)
  | TimeoutError (msg : string)
  | GenerationError (msg : string)
  | GraphRecursionError
  | GraphValueError (node : string).

Inductive Event : Type :=
  | EvExists (path : string)
  | EvMkdir (dir : string)
  | EvOpen (path : string)
  | EvPost (url : string) (audio : string)
  | EvGet (url : string)
  | EvSleep (seconds : Z)
  | EvWriteText (dir name content : string)
  | EvGenerate (system user : string)
  | EvStrftime (format : string).

Definition Trace : Type := list Event.

Inductive Result (A : Type) : Type :=
  | Ok (a : A)
  | Raise (e : Exn).
Arguments Ok {A} a.
Arguments Raise {A} e.

(** ** The environment: what the outside world answers *)

(** [open(audio_path, "rb")]. *)
Inductive OpenOutcome : Type :=
  | OpenOk
  | OpenNotFound
  | OpenOSError (msg : string).

(** What [response.json()["id"]] makes of a response body: the id,
    rendered as text, when the body is a JSON object with that key;
    [KeyError('id')] when the object has no such key; another exception
    when the body is not JSON or not an object. *)
Inductive ResponseBody : Type :=
  | BodyWithId (task_id : string)
  | BodyWithoutId
  | BodyNotObject (msg : string).

(** [requests.post]: either the call raises, or a response comes back with
    a status code and a body. *)
Inductive PostOutcome : Type :=
  | PostRaises (msg : string)
  | PostResponse (status_code : Z) (body : ResponseBody).

(** [requests.get] inside the poll: a response, the [ReadTimeout] the code
    names, or any other exception of class [Exception]. *)
Inductive GetOutcome : Type :=
  | GetResponse (status_code : Z) (text : string)
  | GetReadTimeout
  | GetRaises (msg : string).

(** [chain.invoke] (prompt, chat model, output parser). *)
Inductive GenOutcome : Type :=
  | GenText (text : string)
  | GenRaises (msg : string).

Record Env : Type := {
  env_exists : nat -> string -> bool;
  env_open : nat -> string -> OpenOutcome;
  env_post : nat -> string -> PostOutcome;
  env_get : string -> nat -> GetOutcome;
  env_generate : nat -> string -> string -> GenOutcome;
  env_strftime : nat -> string -> string
}.

(** ** Counting events of one kind in a trace *)

Definition is_exists (e : Event) : bool :=
  match e with EvExists _ => true | _ => false end.
Definition is_open (e : Event) : bool :=
  match e with EvOpen _ => true | _ => false end.
Definition is_post (e : Event) : bool :=
  match e with EvPost _ _ => true | _ => false end.
Definition is_get (e : Event) : bool :=
  match e with EvGet _ => true | _ => false end.
Definition is_get_of (url : string) (e : Event) : bool :=
  match e with EvGet u => bool_decide (u = url) | _ => false end.
Definition is_sleep (e : Event) : bool :=
  match e with EvSleep _ => true | _ => false end.
Definition is_write (e : Event) : bool :=
  match e with EvWriteText _ _ _ => true | _ => false end.
Definition is_generate (e : Event) : bool :=
  match e with EvGenerate _ _ => true | _ => false end.
Definition is_strftime (e : Event) : bool :=
  match e with EvStrftime _ => true | _ => false end.

Fixpoint count (p : Event -> bool) (tr : Trace) : nat :=
  match tr with
  | [] => O
  | e :: tr' => ((if p e then 1 else 0) + count p tr')%nat
  end.

(** ** The monad of effectful code *)

Definition M (A : Type) : Type := Trace -> Result A * Trace.

Definition ret {A} (a : A) : M A := fun tr => (Ok a, tr).

Definition raise {A} (e : Exn) : M A := fun tr => (Raise e, tr).

Definition bind {A B} (m : M A) (k : A -> M B) : M B :=
  fun tr =>
    match m tr with
    | (Ok a, tr') => k a tr'
    | (Raise e, tr') => (Raise e, tr')
    end.

Definition emit (e : Event) : M unit := fun tr => (Ok tt, tr ++ [e]).

Notation "x <- m ;; k" := (bind m (fun x => k))
  (at level 100, m at next level, right associativity).
Notation "m ;;; k" := (bind m (fun _ => k))
  (at level 100, right associativity).

(** ** MeetingState: the dictionary shared by the nodes *)

Abbreviation MeetingState := (gmap string string).

(** [state.get(key, "")]. *)
Definition get_or_empty (state : MeetingState) (key : string) : string :=
  default "" (state !! key).

(** Python truthiness of a [str]. *)
Definition truthy (s : string) : bool :=
  match s with EmptyString => false | String _ _ => true end.

(** ** The two system prompts (verbatim) *)

Definition MINUTES_SYSTEM_PROMPT : string := "你是一位專業的會議記錄員。請將以下語音轉錄內容整理成詳細的逐字稿。

## 輸出要求：
1. 使用 Markdown 表格格式
2. 按時間順序列出每一句話
3. 保留時間戳（如果有的話）
4. 不要省略任何內容
5. 使用繁體中文

## 輸出格式範例：
## 📋 詳細記錄（Detailed Minutes）
### 會議發言紀錄 — Podcast

| **時間** | **發言內容** |
|----------|-------------|
| 00:00:00 - 00:00:03 | 歡迎來到天下文化 podcast，我是阿布阿哥。 |
| 00:00:03 - 00:00:10 | 今天要介紹一本非常棒的書... |
".

Definition SUMMARY_SYSTEM_PROMPT : string := "你是一位專業的內容分析師。請閱讀以下語音轉錄內容，並產生一份重點摘要。

## 輸出要求：
1. 開頭標題：## 🎯 重點摘要（Executive Summary）
2. 列出主題名稱
3. 歸納 3-5 個關鍵重點
4. 如果有結論或建議，請標註
5. 如果有待辦事項，請列出
6. 使用繁體中文，條列式呈現

## 輸出格式範例：
## 🎯 重點摘要（Executive Summary）
### 主題：《努力但不費力》Podcast 導讀

本次會議重點討論了葛瑞格麥乞昂的《努力但不費力》一書。

**決策結論：**
* 鼓勵團隊成員重新審視「努力」的定義...

**待辦事項（Action Items）：**
* 學習「不費力」的三個階段：狀態、行動、成果
* 反思自身工作模式...
".

(** ** Pieces of the report template of [writer_node] *)

(** One line feed. *)
Definition LF : string := "
".

Definition REPORT_TITLE : string := "# 📑 智慧會議紀錄報告".

(** The horizontal rule with the blank lines around it. *)
Definition REPORT_SEPARATOR : string := LF +:+ LF +:+ "---" +:+ LF +:+ LF.

Definition REPORT_CREDIT : string := "*本報告由 LangGraph 智慧會議記錄助手自動產生*".

Definition REPORT_TIME_LABEL : string := "*產生時間：".

(** The footer: credit line and generation time line. *)
Definition report_footer (now : string) : string :=
  REPORT_CREDIT +:+ LF +:+ REPORT_TIME_LABEL +:+ now +:+ "*" +:+ LF.

Definition STRFTIME_FORMAT : string := "%Y-%m-%d %H:%M:%S".

Section Program.

Variable env : Env.

(** ** Primitive calls *)

Definition path_exists (path : string) : M bool := fun tr =>
  (Ok (env_exists env (count is_exists tr) path), tr ++ [EvExists path]).

Definition open_rb (path : string) : M OpenOutcome := fun tr =>
  (Ok (env_open env (count is_open tr) path), tr ++ [EvOpen path]).

Definition requests_post (url audio : string) : M PostOutcome := fun tr =>
  (Ok (env_post env (count is_post tr) audio), tr ++ [EvPost url audio]).

Definition requests_get (url : string) : M GetOutcome := fun tr =>
  (Ok (env_get env url (count (is_get_of url) tr)), tr ++ [EvGet url]).

Definition time_sleep (seconds : Z) : M unit := emit (EvSleep seconds).

Definition mkdir (dir : string) : M unit := emit (EvMkdir dir).

(** [(dir / name).write_text(content)]. *)
Definition write_text (dir name content : string) : M unit :=
  emit (EvWriteText dir name content).

Definition time_strftime (format : string) : M string := fun tr =>
  (Ok (env_strftime env (count is_strftime tr) format), tr ++ [EvStrftime format]).

(** [chain.invoke({"content": content})] for the chain
    [prompt | llm | StrOutputParser()], where the prompt has one system
    message and the user message ["{content}"]. *)
Definition chain_invoke (system content : string) : M string := fun tr =>
  match env_generate env (count is_generate tr) system content with
  | GenText text => (Ok text, tr ++ [EvGenerate system content])
  | GenRaises msg => (Raise (GenerationError msg), tr ++ [EvGenerate system content])
  end.

(** ** asr_node *)

(** The [for i in range(max_tries)] loop of [wait_download], by recursion
    on the number of iterations left. *)
Fixpoint wait_download_loop (url : string) (tries_left : nat) : M string :=
  match tries_left with
  | O => ret ""
  | S tries_left' =>
      resp <- requests_get url ;;
      match resp with
      | GetResponse status_code text =>
          if status_code =? 200 then ret text
          else time_sleep 2 ;;; wait_download_loop url tries_left'
      | GetReadTimeout => time_sleep 2 ;;; wait_download_loop url tries_left'
      | GetRaises _ => time_sleep 2 ;;; wait_download_loop url tries_left'
      end
  end.

Definition wait_download (url file_type : string) (max_tries : Z) : M string :=
  wait_download_loop url (Z.to_nat max_tries).

Definition txt_url (task_id : string) : string :=
  ASR_BASE +:+ "/api/v1/subtitle/tasks/" +:+ task_id +:+ "/subtitle?type=TXT".

Definition srt_url (task_id : string) : string :=
  ASR_BASE +:+ "/api/v1/subtitle/tasks/" +:+ task_id +:+ "/subtitle?type=SRT".

(** [response.raise_for_status()] raises for the 4xx and 5xx codes. *)
Definition is_error_status (status_code : Z) : bool :=
  (400 <=? status_code) && (status_code <? 600).

(** Step 1 of [asr_node], the [try] block that uploads the audio file and
    reads the task id; both [except] clauses re-raise. *)
Definition asr_create_task (audio_path : string) : M string :=
  f <- open_rb audio_path ;;
  match f with
  | OpenNotFound => raise (FileNotFoundError audio_path)
  | OpenOSError msg => raise (UploadError msg)
  | OpenOk =>
      response <- requests_post ASR_CREATE_URL audio_path ;;
      match response with
      | PostRaises msg => raise (UploadError msg)
      | PostResponse status_code body =>
          if is_error_status status_code then raise (HTTPError status_code)
          else match body with
               | BodyWithId task_id => ret task_id
               | BodyWithoutId => raise (KeyError "id")
               | BodyNotObject msg => raise (UploadError msg)
               end
      end
  end.

Definition TXT_TIMEOUT_MESSAGE : string := "TXT 轉錄逾時或失敗".

(** The node returns the update [{"txt_content": ..., "srt_content": ...}]. *)
Definition asr_node (state : MeetingState) : M MeetingState :=
  match state !! "audio_path" with
  | None => raise (KeyError "audio_path")
  | Some audio_path =>
      mkdir "out" ;;;
      task_id <- asr_create_task audio_path ;;
      txt_text <- wait_download (txt_url task_id) "TXT" 300 ;;
      if negb (truthy txt_text) then raise (TimeoutError TXT_TIMEOUT_MESSAGE)
      else
        srt_text <- wait_download (srt_url task_id) "SRT" 300 ;;
        write_text "out" (task_id +:+ ".txt") txt_text ;;;
        (if truthy srt_text
         then write_text "out" (task_id +:+ ".srt") srt_text
         else ret tt) ;;;
        ret (<["txt_content" := txt_text]>
             (<["srt_content" := if truthy srt_text then srt_text else ""]> ∅))
  end.

(** ** minutes_taker_node *)

Definition minutes_taker_node (state : MeetingState) : M MeetingState :=
  let srt_content := get_or_empty state "srt_content" in
  let txt_content := get_or_empty state "txt_content" in
  let content_to_process :=
    if truthy srt_content then srt_content else txt_content in
  result <- chain_invoke MINUTES_SYSTEM_PROMPT content_to_process ;;
  ret (<["detailed_minutes" := result]> ∅).

(** ** summarizer_node *)

Definition summarizer_node (state : MeetingState) : M MeetingState :=
  let txt_content := get_or_empty state "txt_content" in
  result <- chain_invoke SUMMARY_SYSTEM_PROMPT txt_content ;;
  ret (<["summary" := result]> ∅).

(** ** writer_node *)

(** The f-string of [writer_node], with the clock reading as a parameter. *)
Definition compose_report (summary detailed_minutes now : string) : string :=
  REPORT_TITLE +:+ REPORT_SEPARATOR +:+ summary +:+ REPORT_SEPARATOR
  +:+ detailed_minutes +:+ REPORT_SEPARATOR +:+ report_footer now.

Definition writer_node (state : MeetingState) : M MeetingState :=
  let detailed_minutes := get_or_empty state "detailed_minutes" in
  let summary := get_or_empty state "summary" in
  now <- time_strftime STRFTIME_FORMAT ;;
  let final_report := compose_report summary detailed_minutes now in
  ret (<["final_report" := final_report]> ∅).

(** ** The graph *)

Definition Node : Type := MeetingState -> M MeetingState.

(** The keys of [class MeetingState(TypedDict)]. *)
Definition MEETING_STATE_KEYS : list string :=
  ["audio_path"; "txt_content"; "srt_content"; "detailed_minutes";
   "summary"; "final_report"].

Record StateGraph : Type := {
  schema : list string;
  nodes : list (string * Node);
  entry_point : option string;
  edges : list (string * string)
}.

Definition END : string := "__end__".

(** [StateGraph(schema)]. *)
Definition new_graph (keys : list string) : StateGraph :=
  {| schema := keys; nodes := []; entry_point := None; edges := [] |}.

Definition add_node (name : string) (f : Node) (g : StateGraph) : StateGraph :=
  {| schema := schema g;
     nodes := nodes g ++ [(name, f)];
     entry_point := entry_point g;
     edges := edges g |}.

Definition set_entry_point (name : string) (g : StateGraph) : StateGraph :=
  {| schema := schema g;
     nodes := nodes g;
     entry_point := Some name;
     edges := edges g |}.

Definition add_edge (source target : string) (g : StateGraph) : StateGraph :=
  {| schema := schema g;
     nodes := nodes g;
     entry_point := entry_point g;
     edges := edges g ++ [(source, target)] |}.

Fixpoint assoc {A} (key : string) (l : list (string * A)) : option A :=
  match l with
  | [] => None
  | (k, v) :: l' => if bool_decide (k = key) then Some v else assoc key l'
  end.

Definition build_meeting_graph : StateGraph :=
  let workflow := new_graph MEETING_STATE_KEYS in
  let workflow := add_node "asr" asr_node workflow in
  let workflow := add_node "minutes_taker" minutes_taker_node workflow in
  let workflow := add_node "summarizer" summarizer_node workflow in
  let workflow := add_node "writer" writer_node workflow in
  let workflow := set_entry_point "asr" workflow in
  let workflow := add_edge "asr" "minutes_taker" workflow in
  let workflow := add_edge "minutes_taker" "summarizer" workflow in
  let workflow := add_edge "summarizer" "writer" workflow in
  let workflow := add_edge "writer" END workflow in
  workflow.

(** ** Running a compiled graph

    LangGraph's runner, for graphs in which every node has at most one
    outgoing edge and whose nodes write keys of the schema only: read the
    keys of the schema from the input (other keys of the input are
    dropped), then run the current node on the state, write the keys of
    its update into the state, follow the edge; stop at [END].  An
    exception raised by a node leaves the runner.  One node is run per
    step and at most [recursion_limit] steps are taken.

    [run_from] returns the updates produced so far, in order (what
    [app.stream] yields), together with how the run ended. *)

Definition recursion_limit : nat := 25.

Definition RunResult : Type := list (string * MeetingState) * Result MeetingState.

Fixpoint run_from (g : StateGraph) (steps_left : nat) (current : string)
    (state : MeetingState) (tr : Trace) : RunResult * Trace :=
  if bool_decide (current = END) then (([], Ok state), tr)
  else
    match steps_left with
    | O => (([], Raise GraphRecursionError), tr)
    | S steps_left' =>
        match assoc current (nodes g) with
        | None => (([], Raise (GraphValueError current)), tr)
        | Some node =>
            match node state tr with
            | (Raise e, tr') => (([], Raise e), tr')
            | (Ok update, tr') =>
                let state' := update ∪ state in
                match assoc current (edges g) with
                | None => (([(current, update)], Ok state'), tr')
                | Some next =>
                    let '((yielded, outcome), tr'') :=
                      run_from g steps_left' next state' tr' in
                    (((current, update) :: yielded, outcome), tr'')
                end
            end
        end
    end.

(** The part of the input the graph reads: the keys of its schema. *)
Definition read_input (g : StateGraph) (input : MeetingState) : MeetingState :=
  filter (fun kv => kv.1 ∈ schema g) input.

Definition run (g : StateGraph) (state : MeetingState) (tr : Trace)
    : RunResult * Trace :=
  match entry_point g with
  | None => (([], Raise (GraphValueError "")), tr)
  | Some start => run_from g recursion_limit start (read_input g state) tr
  end.

(** [app.stream(state)], consumed to its end. *)
Definition stream (g : StateGraph) (state : MeetingState)
    : M (list (string * MeetingState)) := fun tr =>
  match run g state tr with
  | ((yielded, Ok _), tr') => (Ok yielded, tr')
  | ((_, Raise e), tr') => (Raise e, tr')
  end.

(** [app.invoke(state)]. *)
Definition invoke (g : StateGraph) (state : MeetingState) : M MeetingState :=
  fun tr => let '((_, outcome), tr') := run g state tr in (outcome, tr').

(** ** main *)

(** [str(Path(AUDIO_PATH))]: [pathlib] drops the leading ["./"]. *)
Definition audio_path_str : string := "audio/Podcast_EP14_30s.wav".

Definition initial_state : MeetingState :=
  <["audio_path" := audio_path_str]>
  (<["txt_content" := ""]>
  (<["srt_content" := ""]>
  (<["detailed_minutes" := ""]>
  (<["summary" := ""]>
  (<["final_report" := ""]> ∅))))).

Definition NO_REPORT : string := "無報告".

(** The drawing of the graph is only printed, inside a [try] that
    swallows every exception; it has no other effect.  The graph is then
    run to its end through [app.stream], and run again by [app.invoke]. *)
Definition main : M unit :=
  let app := build_meeting_graph in
  found <- path_exists audio_path_str ;;
  if negb found then ret tt
  else
    stream app initial_state ;;;
    final_state <- invoke app initial_state ;;
    let final_report := default NO_REPORT (final_state !! "final_report") in
    mkdir "out" ;;;
    write_text "out" "meeting_report.md" final_report.

End Program.

(** ** The orchestrator's terminal states *)

Inductive Terminal : Type :=
  | Done (final_state : MeetingState)
  | Failed (e : Exn).

Definition terminal (outcome : Result MeetingState) : Terminal :=
  match outcome with
  | Ok final_state => Done final_state
  | Raise e => Failed e
  end.

(** * Properties *)

(** ** Vocabulary of the statements *)

(** One poll answer ends the loop exactly when it is a response with
    status 200. *)
Definition ready (o : GetOutcome) : bool :=
  match o with
  | GetResponse status_code _ => status_code =? 200
  | GetReadTimeout => false
  | GetRaises _ => false
  end.

(** The endpoint [url] is not ready on its next [n] requests, the first of
    which is request number [base]. *)
Definition never_ready (env : Env) (url : string) (base n : nat) : Prop :=
  forall i, (i < n)%nat -> ready (env_get env url (base + i)) = false.

(** The endpoint [url] is not ready [n] times, then answers 200 with
    [body]. *)
Definition ready_after (env : Env) (url : string) (base n : nat)
    (body : string) : Prop :=
  never_ready env url base n /\
  env_get env url (base + n) = GetResponse 200 body.

(** The trace of [k] unsuccessful attempts: a request, then a sleep. *)
Fixpoint polls (url : string) (k : nat) : Trace :=
  match k with
  | O => []
  | S k' => EvGet url :: EvSleep 2 :: polls url k'
  end.

(** What the task-creation response yields: the task id, unless the status
    is an error status or the body carries no id. *)
Definition created_id (o : PostOutcome) : option string :=
  match o with
  | PostResponse status_code (BodyWithId task_id) =>
      if is_error_status status_code then None else Some task_id
  | _ => None
  end.

(** The upload succeeds from trace [tr] and the service assigns [task_id]. *)
Definition upload_ok (env : Env) (tr : Trace) (audio_path task_id : string)
    : Prop :=
  env_open env (count is_open tr) audio_path = OpenOk /\
  created_id (env_post env (count is_post tr) audio_path) = Some task_id.

(** A trace made of requests to [url] and of two-second sleeps only. *)
Definition poll_events (url : string) (ext : Trace) : Prop :=
  Forall (fun e => e = EvGet url \/ e = EvSleep 2) ext.

(** The two generation calls of a run started at trace [tr] succeed: the
    call for the detailed minutes, on whatever content it is given, and
    the call for the summary of [txt_text]. *)
Definition generation_succeeds (env : Env) (tr : Trace) (txt_text : string)
    : Prop :=
  (forall content, exists text,
     env_generate env (count is_generate tr) MINUTES_SYSTEM_PROMPT content
     = GenText text) /\
  (exists text,
     env_generate env (S (count is_generate tr)) SUMMARY_SYSTEM_PROMPT txt_text
     = GenText text).

(** The content [minutes_taker_node] hands to the chat model. *)
Definition minutes_input (state : MeetingState) : string :=
  if truthy (get_or_empty state "srt_content")
  then get_or_empty state "srt_content"
  else get_or_empty state "txt_content".

(** The trace of [asr_node] up to and including the successful TXT poll. *)
Definition transcribed_prefix (tr : Trace) (audio_path task_id : string)
    (N : nat) : Trace :=
  tr ++ [EvMkdir "out"; EvOpen audio_path; EvPost ASR_CREATE_URL audio_path]
     ++ polls (txt_url task_id) N ++ [EvGet (txt_url task_id)].

(** The files [asr_node] writes once both polls are over. *)
Definition transcript_writes (task_id txt_text srt_text : string) : Trace :=
  EvWriteText "out" (task_id +:+ ".txt") txt_text
  :: (if truthy srt_text
      then [EvWriteText "out" (task_id +:+ ".srt") srt_text]
      else []).

(** The report up to the generation time, and what follows the time. *)
Definition report_before_time (summary detailed_minutes : string) : string :=
  REPORT_TITLE +:+ REPORT_SEPARATOR +:+ summary +:+ REPORT_SEPARATOR
  +:+ detailed_minutes +:+ REPORT_SEPARATOR +:+ REPORT_CREDIT +:+ LF
  +:+ REPORT_TIME_LABEL.

Definition report_after_time : string := "*" +:+ LF.

(** [s] occurs inside [r]. *)
Definition contains (r s : string) : Prop :=
  exists before after, r = before +:+ s +:+ after.

(** ** Concrete environments used to exercise the statements *)

(** Status 404 twice, then 200 with [body]. *)
Definition twice_404_then (body : string) (n : nat) : GetOutcome :=
  if (n <? 2)%nat then GetResponse 404 "" else GetResponse 200 body.

(** Every kind of unsuccessful attempt, and never a 200. *)
Definition never_200 (n : nat) : GetOutcome :=
  match n with
  | O => GetResponse 404 "Not Found"
  | S O => GetReadTimeout
  | S (S O) => GetRaises "Connection reset by peer"
  | _ => GetResponse 503 ""
  end.

Definition ready_at_once (body : string) (n : nat) : GetOutcome :=
  GetResponse 200 body.

(** A service that accepts the upload as task ["T1"] and answers the two
    result endpoints with the given sequences; a chat model that echoes
    its input behind a tag; a frozen clock. *)
Definition scenario_env (txt_answers srt_answers : nat -> GetOutcome) : Env := {|
  env_exists := fun _ _ => true;
  env_open := fun _ _ => OpenOk;
  env_post := fun _ _ => PostResponse 200 (BodyWithId "T1");
  env_get := fun url n =>
    if bool_decide (url = txt_url "T1") then txt_answers n else srt_answers n;
  env_generate := fun _ system user => GenText ("LLM: " +:+ user);
  env_strftime := fun _ _ => "2024-01-01 00:00:00"
|}.

(** TXT ready on the third request, SRT never. *)
Definition env_retry : Env := scenario_env (twice_404_then "ABC") never_200.

(** Neither result is ever ready. *)
Definition env_timeout : Env := scenario_env never_200 never_200.

(** Both results ready on the first request. *)
Definition env_quick : Env :=
  scenario_env (ready_at_once "ABC") (ready_at_once "00:00:00 ABC").

(** The audio file is missing. *)
Definition env_no_audio : Env := {|
  env_exists := fun _ _ => false;
  env_open := fun _ _ => OpenNotFound;
  env_post := env_post env_quick;
  env_get := env_get env_quick;
  env_generate := env_generate env_quick;
  env_strftime := env_strftime env_quick
|}.

(** What a poll answer hands back when it ends the loop. *)
Definition ready_body (o : GetOutcome) : option string :=
  match o with
  | GetResponse status_code text => if status_code =? 200 then Some text else None
  | GetReadTimeout => None
  | GetRaises _ => None
  end.

(** Seconds spent in [time.sleep] along a trace. *)
Fixpoint slept (tr : Trace) : Z :=
  match tr with
  | [] => 0
  | EvSleep seconds :: tr' => seconds + slept tr'
  | _ :: tr' => slept tr'
  end.

(** The same environment with another answer to the upload. *)
Definition with_post (env : Env) (post : nat -> string -> PostOutcome) : Env := {|
  env_exists := env_exists env;
  env_open := env_open env;
  env_post := post;
  env_get := env_get env;
  env_generate := env_generate env;
  env_strftime := env_strftime env
|}.

(** The same environment with another chat model. *)
Definition with_generate (env : Env)
    (generate : nat -> string -> string -> GenOutcome) : Env := {|
  env_exists := env_exists env;
  env_open := env_open env;
  env_post := env_post env;
  env_get := env_get env;
  env_generate := generate;
  env_strftime := env_strftime env
|}.

(** The same environment with another clock. *)
Definition with_strftime (env : Env) (clock : nat -> string -> string) : Env := {|
  env_exists := env_exists env;
  env_open := env_open env;
  env_post := env_post env;
  env_get := env_get env;
  env_generate := env_generate env;
  env_strftime := clock
|}.

(** The upload is answered by a server error. *)
Definition env_rejected : Env :=
  with_post env_quick (fun _ _ => PostResponse 500 (BodyNotObject "Internal Server Error")).

(** The upload is answered by a redirect that carries an id. *)
Definition env_redirect : Env :=
  with_post env_quick (fun _ _ => PostResponse 302 (BodyWithId "T2")).

(** The TXT endpoint answers 200 with an empty body. *)
Definition env_empty_txt : Env := scenario_env (ready_at_once "") never_200.

(** Both endpoints answer 404 for ever. *)
Definition env_all_404 : Env :=
  scenario_env (fun _ => GetResponse 404 "") (fun _ => GetResponse 404 "").

(** The first generation call fails. *)
Definition env_minutes_fail : Env :=
  with_generate env_quick
    (fun n system user =>
       match n with
       | O => GenRaises "503 Service Unavailable"
       | S _ => GenText ("LLM: " +:+ user)
       end).

(** The second generation call fails. *)
Definition env_summary_fail : Env :=
  with_generate env_quick
    (fun n system user =>
       match n with
       | S O => GenRaises "503 Service Unavailable"
       | _ => GenText ("LLM: " +:+ user)
       end).

(** A clock that has moved on by the second reading. *)
Definition env_ticking : Env :=
  with_strftime env_quick
    (fun n _ =>
       match n with
       | O => "2024-01-01 00:00:00"
       | S _ => "2024-01-01 00:00:07"
       end).


(** ** Traces *)

Lemma count_app p (a b : Trace) : count p (a ++ b) = (count p a + count p b)%nat.
Proof.
  induction a as [|e a IH]; simpl; [reflexivity|]. rewrite IH. lia.
Qed.

Lemma count_snoc p (a : Trace) e :
  count p (a ++ [e]) = (count p a + if p e then 1 else 0)%nat.
Proof. rewrite count_app. simpl. lia. Qed.

Lemma count_polls_get_of url k : count (is_get_of url) (polls url k) = k.
Proof.
  induction k as [|k IH]; simpl; [reflexivity|].
  rewrite bool_decide_eq_true_2 by reflexivity. rewrite IH. reflexivity.
Qed.

Lemma count_polls_get url k : count is_get (polls url k) = k.
Proof. induction k as [|k IH]; simpl; congruence. Qed.

Lemma count_polls_sleep url k : count is_sleep (polls url k) = k.
Proof. induction k as [|k IH]; simpl; congruence. Qed.

Lemma count_polls_other p url k :
  p (EvGet url) = false -> p (EvSleep 2) = false ->
  count p (polls url k) = O.
Proof.
  intros Hg Hs. induction k as [|k IH]; simpl; [reflexivity|].
  rewrite Hg, Hs, IH. reflexivity.
Qed.

(** ** The poll loop *)

Section PollLoop.

Variable env : Env.
Variable url : string.

Lemma wait_loop_ready (n : nat) (tr : Trace) (body : string) :
  env_get env url (count (is_get_of url) tr) = GetResponse 200 body ->
  wait_download_loop env url (S n) tr = (Ok body, tr ++ [EvGet url]).
Proof.
  intros H. simpl. unfold bind, requests_get. rewrite H. reflexivity.
Qed.

Lemma wait_loop_pending (n : nat) (tr : Trace) :
  ready (env_get env url (count (is_get_of url) tr)) = false ->
  wait_download_loop env url (S n) tr
  = wait_download_loop env url n (tr ++ [EvGet url; EvSleep 2]).
Proof.
  intros H. simpl. unfold bind, requests_get, time_sleep, emit.
  replace (tr ++ [EvGet url; EvSleep 2])
    with ((tr ++ [EvGet url]) ++ [EvSleep 2])
    by (rewrite <- app_assoc; reflexivity).
  destruct (env_get env url (count (is_get_of url) tr)) as [sc t| |m];
    simpl in H; try reflexivity.
  rewrite H. reflexivity.
Qed.

Lemma count_get_of_after_poll (tr : Trace) :
  count (is_get_of url) (tr ++ [EvGet url; EvSleep 2])
  = S (count (is_get_of url) tr).
Proof.
  rewrite count_app. simpl.
  rewrite bool_decide_eq_true_2 by reflexivity. lia.
Qed.

Lemma wait_loop_skip (k m : nat) (tr : Trace) :
  never_ready env url (count (is_get_of url) tr) k ->
  wait_download_loop env url (k + m) tr
  = wait_download_loop env url m (tr ++ polls url k).
Proof.
  revert tr. induction k as [|k IH]; intros tr H.
  - simpl. rewrite app_nil_r. reflexivity.
  - change (S k + m)%nat with (S (k + m)).
    rewrite wait_loop_pending.
    + rewrite IH.
      * change (polls url (S k)) with ([EvGet url; EvSleep 2] ++ polls url k).
        rewrite app_assoc. reflexivity.
      * intros i Hi. rewrite count_get_of_after_poll.
        replace (S (count (is_get_of url) tr) + i)%nat
          with (count (is_get_of url) tr + S i)%nat by lia.
        apply H. lia.
    + specialize (H O ltac:(lia)). rewrite Nat.add_0_r in H. exact H.
Qed.

(** The loop always returns: either all [n] attempts fail and the answer is
    the empty string, or the first ready answer is returned. *)
Lemma wait_loop_cases (n : nat) (tr : Trace) :
  (never_ready env url (count (is_get_of url) tr) n /\
   wait_download_loop env url n tr = (Ok "", tr ++ polls url n))
  \/
  (exists k body, (k < n)%nat /\
     ready_after env url (count (is_get_of url) tr) k body /\
     wait_download_loop env url n tr = (Ok body, tr ++ polls url k ++ [EvGet url])).
Proof.
  revert tr. induction n as [|n IH]; intros tr.
  - left. split; [intros i Hi; lia|]. simpl. rewrite app_nil_r. reflexivity.
  - destruct (ready (env_get env url (count (is_get_of url) tr))) eqn:Hr.
    + right. exists O.
      destruct (env_get env url (count (is_get_of url) tr)) as [sc body| |msg] eqn:Hg;
        simpl in Hr; try discriminate.
      apply Z.eqb_eq in Hr. subst sc. exists body.
      split; [lia|]. split.
      * split; [intros i Hi; lia|]. rewrite Nat.add_0_r. exact Hg.
      * simpl polls. simpl app. apply wait_loop_ready. exact Hg.
    + rewrite wait_loop_pending by exact Hr.
      destruct (IH (tr ++ [EvGet url; EvSleep 2])) as [[Hn He]|(k & body & Hk & [Hn Hb] & He)].
      * left. rewrite count_get_of_after_poll in Hn. split.
        -- intros i Hi. destruct i as [|i].
           ++ rewrite Nat.add_0_r. exact Hr.
           ++ replace (count (is_get_of url) tr + S i)%nat
                with (S (count (is_get_of url) tr) + i)%nat by lia.
              apply Hn. lia.
        -- rewrite He. rewrite <- app_assoc. reflexivity.
      * right. exists (S k), body. rewrite count_get_of_after_poll in Hn, Hb.
        split; [lia|]. split; [split|].
        -- intros i Hi. destruct i as [|i].
           ++ rewrite Nat.add_0_r. exact Hr.
           ++ replace (count (is_get_of url) tr + S i)%nat
                with (S (count (is_get_of url) tr) + i)%nat by lia.
              apply Hn. lia.
        -- replace (count (is_get_of url) tr + S k)%nat
             with (S (count (is_get_of url) tr) + k)%nat by lia.
           exact Hb.
        -- rewrite He. rewrite <- app_assoc. reflexivity.
Qed.

Lemma wait_loop_success (n k : nat) (tr : Trace) (body : string) :
  (k < n)%nat ->
  ready_after env url (count (is_get_of url) tr) k body ->
  wait_download_loop env url n tr = (Ok body, tr ++ polls url k ++ [EvGet url]).
Proof.
  intros Hk [Hn Hb].
  replace n with (k + S (n - S k))%nat by lia.
  rewrite wait_loop_skip by exact Hn.
  rewrite (wait_loop_ready _ _ body).
  - rewrite <- app_assoc. reflexivity.
  - rewrite count_app, count_polls_get_of. exact Hb.
Qed.

Lemma wait_loop_exhausted (n : nat) (tr : Trace) :
  never_ready env url (count (is_get_of url) tr) n ->
  wait_download_loop env url n tr = (Ok "", tr ++ polls url n).
Proof.
  intros Hn. replace n with (n + 0)%nat at 1 by lia.
  rewrite wait_loop_skip by exact Hn. reflexivity.
Qed.

End PollLoop.

(** ** The poll primitive [wait_download] *)

Lemma poll_events_polls (url : string) (k : nat) :
  poll_events url (polls url k).
Proof.
  induction k as [|k IH]; simpl; [constructor|].
  constructor; [left; reflexivity|].
  constructor; [right; reflexivity|exact IH].
Qed.

Lemma poll_events_count (p : Event -> bool) (url : string) (ext : Trace) :
  poll_events url ext ->
  p (EvGet url) = false -> p (EvSleep 2) = false -> count p ext = O.
Proof.
  intros H Hg Hs. induction H as [|e ext [He|He] _ IH]; simpl;
    [reflexivity| |]; subst e; rewrite ?Hg, ?Hs, IH; reflexivity.
Qed.

(** [wait_download] returns for every environment: no answer of the
    endpoint makes it raise, and all it does is request and sleep. *)
Lemma wait_download_never_raises (env : Env) (url file_type : string)
    (max_tries : Z) (tr : Trace) :
  exists text ext,
    wait_download env url file_type max_tries tr = (Ok text, tr ++ ext) /\
    poll_events url ext.
Proof.
  unfold wait_download.
  destruct (wait_loop_cases env url (Z.to_nat max_tries) tr)
    as [[_ He]|(k & body & _ & _ & He)].
  - exists "", (polls url (Z.to_nat max_tries)). split; [exact He|].
    apply poll_events_polls.
  - exists body, (polls url k ++ [EvGet url]). split; [exact He|].
    apply Forall_app. split; [apply poll_events_polls|].
    constructor; [left; reflexivity|constructor].
Qed.

(** C3. Given [N] answers that are not a 200 followed by a 200 with [body],
    with [N < max_tries], [wait_download] returns [body]; the requests and
    sleeps it performs are exactly [N] rounds of request-then-sleep
    followed by one last request: [N + 1] requests and [N] sleeps. *)
Theorem wait_download_success_after_retries (env : Env)
    (url file_type : string) (max_tries : Z) (N : nat) (body : string)
    (tr : Trace) :
  Z.of_nat N < max_tries ->
  ready_after env url (count (is_get_of url) tr) N body ->
  exists tr',
    wait_download env url file_type max_tries tr = (Ok body, tr') /\
    tr' = tr ++ polls url N ++ [EvGet url] /\
    count is_get tr' = (count is_get tr + (N + 1))%nat /\
    count is_sleep tr' = (count is_sleep tr + N)%nat.
Proof.
  intros HN Hready. exists (tr ++ polls url N ++ [EvGet url]).
  split; [|split; [reflexivity|split]].
  - unfold wait_download. apply wait_loop_success; [lia|exact Hready].
  - rewrite !count_app, count_polls_get. reflexivity.
  - rewrite !count_app, count_polls_sleep. simpl. lia.
Qed.

(** Scenario B: 404, 404, then 200 with body "ABC". *)
Lemma wait_download_scenario_B :
  (Z.of_nat 2 < 300 /\
   ready_after env_retry
     (txt_url "T1") (count (is_get_of (txt_url "T1")) []) 2 "ABC") /\
  exists tr',
    wait_download env_retry
      (txt_url "T1") "TXT" 300 [] = (Ok "ABC", tr') /\
    tr' = [] ++ polls (txt_url "T1") 2 ++ [EvGet (txt_url "T1")] /\
    count is_get tr' = (count is_get [] + (2 + 1))%nat /\
    count is_sleep tr' = (count is_sleep [] + 2)%nat.
Proof.
  assert (Hr : ready_after env_retry
     (txt_url "T1") (count (is_get_of (txt_url "T1")) []) 2 "ABC").
  { split.
    - intros i Hi. destruct i as [|[|i]]; [reflexivity|reflexivity|lia].
    - reflexivity. }
  split; [split; [lia|exact Hr]|].
  apply (wait_download_success_after_retries
           env_retry
           (txt_url "T1") "TXT" 300 2 "ABC" []); [lia|exact Hr].
Defined.

(** C4. When none of the [max_tries] attempts is answered by a 200 (other
    statuses, read timeouts and other request exceptions alike),
    [wait_download] returns the empty string and raises nothing; every
    attempt is one request followed by one sleep, [max_tries] of each. *)
Theorem wait_download_exhausted_returns_empty (env : Env)
    (url file_type : string) (max_tries : Z) (tr : Trace) :
  never_ready env url (count (is_get_of url) tr) (Z.to_nat max_tries) ->
  exists tr',
    wait_download env url file_type max_tries tr = (Ok "", tr') /\
    tr' = tr ++ polls url (Z.to_nat max_tries) /\
    count is_get tr' = (count is_get tr + Z.to_nat max_tries)%nat /\
    count is_sleep tr' = (count is_sleep tr + Z.to_nat max_tries)%nat.
Proof.
  intros Hn. exists (tr ++ polls url (Z.to_nat max_tries)).
  split; [|split; [reflexivity|split]].
  - unfold wait_download. apply wait_loop_exhausted. exact Hn.
  - rewrite count_app, count_polls_get. reflexivity.
  - rewrite count_app, count_polls_sleep. reflexivity.
Qed.

Lemma never_200_never_ready (url : string) (base n : nat) :
  never_ready env_timeout url base n.
Proof.
  intros i _. unfold env_timeout, scenario_env, env_get.
  destruct (bool_decide (url = txt_url "T1"));
    destruct (base + i)%nat as [|[|[|m]]]; reflexivity.
Qed.

(** Scenario C: five attempts, none answered by a 200. *)
Lemma wait_download_scenario_C :
  never_ready env_timeout (txt_url "T1")
    (count (is_get_of (txt_url "T1")) []) (Z.to_nat 5) /\
  exists tr',
    wait_download env_timeout
      (txt_url "T1") "TXT" 5 [] = (Ok "", tr') /\
    tr' = [] ++ polls (txt_url "T1") (Z.to_nat 5) /\
    count is_get tr' = (count is_get [] + Z.to_nat 5)%nat /\
    count is_sleep tr' = (count is_sleep [] + Z.to_nat 5)%nat.
Proof.
  split; [apply never_200_never_ready|].
  apply (wait_download_exhausted_returns_empty
           env_timeout (txt_url "T1") "TXT" 5 []).
  apply never_200_never_ready.
Defined.

(** ** Sequencing *)

Lemma bind_ok {A B} (m : M A) (k : A -> M B) (tr tr' : Trace) (a : A) :
  m tr = (Ok a, tr') -> bind m k tr = k a tr'.
Proof. intros H. unfold bind. rewrite H. reflexivity. Qed.

Lemma bind_raise {A B} (m : M A) (k : A -> M B) (tr tr' : Trace) (e : Exn) :
  m tr = (Raise e, tr') -> bind m k tr = (Raise e, tr').
Proof. intros H. unfold bind. rewrite H. reflexivity. Qed.

Lemma truthy_true (s : string) : truthy s = true <-> s <> "".
Proof. destruct s; simpl; split; intros H; congruence. Qed.

Lemma or_empty (s : string) : (if truthy s then s else "") = s.
Proof. destruct s; reflexivity. Qed.

(** ** The Transcribe stage [asr_node] *)

Lemma txt_url_ne_srt_url (task_id : string) : txt_url task_id <> srt_url task_id.
Proof.
  unfold txt_url, srt_url. intros H.
  apply String.app_inj in H. apply String.app_inj in H.
  apply String.app_inj in H. discriminate H.
Qed.

Section Transcribe.

Variable env : Env.

Lemma asr_create_task_ok (tr : Trace) (audio_path task_id : string) :
  upload_ok env tr audio_path task_id ->
  asr_create_task env audio_path tr
  = (Ok task_id, tr ++ [EvOpen audio_path; EvPost ASR_CREATE_URL audio_path]).
Proof.
  intros [Hopen Hpost]. unfold asr_create_task, bind, open_rb, requests_post.
  rewrite Hopen. rewrite count_snoc. simpl. rewrite Nat.add_0_r.
  unfold created_id in Hpost.
  destruct (env_post env (count is_post tr) audio_path) as [msg|sc [id| |m]];
    try discriminate.
  destruct (is_error_status sc); [discriminate|].
  injection Hpost as ->. rewrite <- app_assoc. reflexivity.
Qed.

Lemma asr_create_task_inv (tr tr' : Trace) (audio_path task_id : string) :
  asr_create_task env audio_path tr = (Ok task_id, tr') ->
  upload_ok env tr audio_path task_id.
Proof.
  intros H. unfold asr_create_task, bind, open_rb, requests_post in H.
  unfold upload_ok, created_id.
  destruct (env_open env (count is_open tr) audio_path); try discriminate H.
  split; [reflexivity|].
  replace (count is_post (tr ++ [EvOpen audio_path]))
    with (count is_post tr) in H
    by (rewrite count_snoc; cbn [is_post]; lia).
  destruct (env_post env (count is_post tr) audio_path) as [msg|sc [id| |m]];
    try discriminate H;
    destruct (is_error_status sc); try discriminate H.
  injection H as -> _. reflexivity.
Qed.

(** The task-creation block issues at most one POST, whatever happens. *)
Lemma asr_create_task_posts (tr : Trace) (audio_path : string) :
  exists r ext,
    asr_create_task env audio_path tr = (r, tr ++ ext) /\
    (count is_post ext <= 1)%nat /\
    (env_open env (count is_open tr) audio_path = OpenOk ->
     count is_post ext = 1%nat) /\
    count is_get ext = O /\ count is_write ext = O /\
    count is_generate ext = O.
Proof.
  unfold asr_create_task, bind, open_rb, requests_post.
  destruct (env_open env (count is_open tr) audio_path) as [| |msg].
  - destruct (env_post env (count is_post (tr ++ [EvOpen audio_path])) audio_path)
      as [msg|sc [id| |m]];
      [|destruct (is_error_status sc)..];
      eexists _, [EvOpen audio_path; EvPost ASR_CREATE_URL audio_path];
      rewrite <- app_assoc; simpl; repeat split; lia.
  - eexists _, [EvOpen audio_path]. simpl. repeat split; try lia. discriminate.
  - eexists _, [EvOpen audio_path]. simpl. repeat split; try lia. discriminate.
Qed.

Lemma asr_node_success (state : MeetingState) (tr : Trace)
    (audio_path task_id : string) (N : nat) (body : string) :
  state !! "audio_path" = Some audio_path ->
  upload_ok env tr audio_path task_id ->
  (N < 300)%nat ->
  ready_after env (txt_url task_id) (count (is_get_of (txt_url task_id)) tr) N body ->
  body <> "" ->
  exists srt_text ext,
    wait_download env (srt_url task_id) "SRT" 300
      (transcribed_prefix tr audio_path task_id N)
    = (Ok srt_text, transcribed_prefix tr audio_path task_id N ++ ext) /\
    poll_events (srt_url task_id) ext /\
    asr_node env state tr
    = (Ok (<["txt_content" := body]> (<["srt_content" := srt_text]> ∅)),
       transcribed_prefix tr audio_path task_id N ++ ext
       ++ transcript_writes task_id body srt_text).
Proof.
  intros Hst Hup HN Hready Hbody.
  destruct (wait_download_never_raises env (srt_url task_id) "SRT" 300
              (transcribed_prefix tr audio_path task_id N))
    as (srt_text & ext & Hsrt & Hext).
  exists srt_text, ext. split; [exact Hsrt|]. split; [exact Hext|].
  unfold asr_node. rewrite Hst.
  rewrite (bind_ok _ _ tr (tr ++ [EvMkdir "out"]) tt) by reflexivity.
  assert (Hup' : upload_ok env (tr ++ [EvMkdir "out"]) audio_path task_id).
  { destruct Hup as [Ho Hp]. split; rewrite count_snoc; simpl;
      rewrite Nat.add_0_r; assumption. }
  rewrite (bind_ok _ _ _ _ _ (asr_create_task_ok _ _ _ Hup')).
  assert (Htxt : wait_download env (txt_url task_id) "TXT" 300
            ((tr ++ [EvMkdir "out"])
               ++ [EvOpen audio_path; EvPost ASR_CREATE_URL audio_path])
          = (Ok body, transcribed_prefix tr audio_path task_id N)).
  { unfold wait_download, transcribed_prefix.
    rewrite (wait_loop_success env _ _ N _ body).
    - rewrite <- !app_assoc. reflexivity.
    - simpl. lia.
    - rewrite !count_app. simpl. rewrite !Nat.add_0_r. exact Hready. }
  rewrite (bind_ok _ _ _ _ _ Htxt).
  apply truthy_true in Hbody. rewrite Hbody. change (negb true) with false. cbv iota.
  rewrite (bind_ok _ _ _ _ _ Hsrt).
  unfold write_text, emit, ret, bind, transcript_writes.
  rewrite or_empty.
  destruct (truthy srt_text); rewrite <- !app_assoc; reflexivity.
Qed.

Lemma asr_node_txt_timeout (state : MeetingState) (tr : Trace)
    (audio_path task_id : string) :
  state !! "audio_path" = Some audio_path ->
  upload_ok env tr audio_path task_id ->
  never_ready env (txt_url task_id) (count (is_get_of (txt_url task_id)) tr) 300 ->
  asr_node env state tr
  = (Raise (TimeoutError TXT_TIMEOUT_MESSAGE),
     tr ++ [EvMkdir "out"; EvOpen audio_path; EvPost ASR_CREATE_URL audio_path]
        ++ polls (txt_url task_id) 300).
Proof.
  intros Hst Hup Hnever.
  unfold asr_node. rewrite Hst.
  rewrite (bind_ok _ _ tr (tr ++ [EvMkdir "out"]) tt) by reflexivity.
  assert (Hup' : upload_ok env (tr ++ [EvMkdir "out"]) audio_path task_id).
  { destruct Hup as [Ho Hp]. split; rewrite count_snoc; simpl;
      rewrite Nat.add_0_r; assumption. }
  rewrite (bind_ok _ _ _ _ _ (asr_create_task_ok _ _ _ Hup')).
  assert (Htxt : wait_download env (txt_url task_id) "TXT" 300
            ((tr ++ [EvMkdir "out"])
               ++ [EvOpen audio_path; EvPost ASR_CREATE_URL audio_path])
          = (Ok "", tr ++ [EvMkdir "out"; EvOpen audio_path;
                           EvPost ASR_CREATE_URL audio_path]
                       ++ polls (txt_url task_id) 300)).
  { unfold wait_download.
    rewrite wait_loop_exhausted.
    - rewrite <- !app_assoc. reflexivity.
    - rewrite !count_app. simpl. rewrite !Nat.add_0_r. exact Hnever. }
  rewrite (bind_ok _ _ _ _ _ Htxt). reflexivity.
Qed.

End Transcribe.

(** ** The generation stages and the report *)

Section Stages.

Variable env : Env.

Lemma chain_invoke_ok (system content text : string) (tr : Trace) :
  env_generate env (count is_generate tr) system content = GenText text ->
  chain_invoke env system content tr
  = (Ok text, tr ++ [EvGenerate system content]).
Proof. intros H. unfold chain_invoke. rewrite H. reflexivity. Qed.

Lemma minutes_taker_node_trace (state : MeetingState) (tr : Trace) :
  snd (minutes_taker_node env state tr)
  = tr ++ [EvGenerate MINUTES_SYSTEM_PROMPT (minutes_input state)].
Proof.
  unfold minutes_taker_node, bind, minutes_input, chain_invoke.
  destruct (env_generate env _ _ _); reflexivity.
Qed.

Lemma minutes_taker_node_ok (state : MeetingState) (tr : Trace) (text : string) :
  env_generate env (count is_generate tr) MINUTES_SYSTEM_PROMPT
    (minutes_input state) = GenText text ->
  minutes_taker_node env state tr
  = (Ok (<["detailed_minutes" := text]> ∅),
     tr ++ [EvGenerate MINUTES_SYSTEM_PROMPT (minutes_input state)]).
Proof.
  intros H. unfold minutes_taker_node.
  rewrite (bind_ok _ _ _ _ _ (chain_invoke_ok _ _ _ _ H)). reflexivity.
Qed.

Lemma summarizer_node_trace (state : MeetingState) (tr : Trace) :
  snd (summarizer_node env state tr)
  = tr ++ [EvGenerate SUMMARY_SYSTEM_PROMPT (get_or_empty state "txt_content")].
Proof.
  unfold summarizer_node, bind, chain_invoke.
  destruct (env_generate env _ _ _); reflexivity.
Qed.

Lemma summarizer_node_ok (state : MeetingState) (tr : Trace) (text : string) :
  env_generate env (count is_generate tr) SUMMARY_SYSTEM_PROMPT
    (get_or_empty state "txt_content") = GenText text ->
  summarizer_node env state tr
  = (Ok (<["summary" := text]> ∅),
     tr ++ [EvGenerate SUMMARY_SYSTEM_PROMPT (get_or_empty state "txt_content")]).
Proof.
  intros H. unfold summarizer_node.
  rewrite (bind_ok _ _ _ _ _ (chain_invoke_ok _ _ _ _ H)). reflexivity.
Qed.

Lemma writer_node_eq (state : MeetingState) (tr : Trace) :
  writer_node env state tr
  = (Ok (<["final_report" :=
            compose_report (get_or_empty state "summary")
              (get_or_empty state "detailed_minutes")
              (env_strftime env (count is_strftime tr) STRFTIME_FORMAT)]> ∅),
     tr ++ [EvStrftime STRFTIME_FORMAT]).
Proof. reflexivity. Qed.

Lemma compose_report_nonempty (summary detailed_minutes now : string) :
  compose_report summary detailed_minutes now <> "".
Proof. unfold compose_report, REPORT_TITLE. simpl. discriminate. Qed.

End Stages.

(** ** The orchestrator *)

Section Orchestrator.

Variable env : Env.

Lemma run_from_end (g : StateGraph) (n : nat) (state : MeetingState)
    (tr : Trace) :
  run_from g n END state tr = (([], Ok state), tr).
Proof. destruct n; reflexivity. Qed.

Lemma run_from_raise (g : StateGraph) (n : nat) (current : string) (node : Node)
    (state : MeetingState) (tr tr' : Trace) (e : Exn) :
  current <> END ->
  assoc current (nodes g) = Some node ->
  node state tr = (Raise e, tr') ->
  run_from g (S n) current state tr = (([], Raise e), tr').
Proof.
  intros Hne Hnode Hrun. simpl.
  rewrite bool_decide_eq_false_2 by exact Hne.
  rewrite Hnode, Hrun. reflexivity.
Qed.

Lemma run_from_step (g : StateGraph) (n : nat) (current next : string) (node : Node)
    (state update : MeetingState) (tr tr' : Trace) :
  current <> END ->
  assoc current (nodes g) = Some node ->
  assoc current (edges g) = Some next ->
  node state tr = (Ok update, tr') ->
  run_from g (S n) current state tr
  = let '((yielded, outcome), tr'') :=
      run_from g n next (update ∪ state) tr' in
    (((current, update) :: yielded, outcome), tr'').
Proof.
  intros Hne Hnode Hedge Hrun. simpl.
  rewrite bool_decide_eq_false_2 by exact Hne.
  rewrite Hnode, Hrun, Hedge. reflexivity.
Qed.

Lemma read_input_lookup (g : StateGraph) (input : MeetingState) (key : string) :
  key ∈ schema g -> read_input g input !! key = input !! key.
Proof.
  intros Hin. unfold read_input. apply option_eq. intros value.
  rewrite map_lookup_filter_Some. simpl. tauto.
Qed.


(** [asr_node] reads nothing of the state but [audio_path]. *)
Lemma asr_node_reads_audio_path (s1 s2 : MeetingState) (tr : Trace) :
  s1 !! "audio_path" = s2 !! "audio_path" ->
  asr_node env s1 tr = asr_node env s2 tr.
Proof. intros H. unfold asr_node. rewrite H. reflexivity. Qed.

Lemma asr_node_read_input (state : MeetingState) (tr : Trace) :
  asr_node env (read_input (build_meeting_graph env) state) tr
  = asr_node env state tr.
Proof.
  apply asr_node_reads_audio_path. apply read_input_lookup.
  apply list_elem_of_In. simpl. tauto.
Qed.

(** When the first stage raises, the run ends there. *)
Lemma run_asr_raises (state : MeetingState) (tr tr' : Trace) (e : Exn) :
  asr_node env state tr = (Raise e, tr') ->
  run (build_meeting_graph env) state tr = (([], Raise e), tr').
Proof.
  intros H. unfold run.
  change (entry_point (build_meeting_graph env)) with (Some "asr").
  unfold recursion_limit.
  apply (run_from_raise (build_meeting_graph env) _ "asr" (asr_node env));
    [discriminate|reflexivity|rewrite asr_node_read_input; exact H].
Qed.

(** When the four stages succeed in turn, the run visits them in the fixed
    order and ends with the merged state. *)
Lemma run_all_stages (state u1 u2 u3 u4 : MeetingState)
    (tr tr1 tr2 tr3 tr4 : Trace) :
  asr_node env state tr = (Ok u1, tr1) ->
  minutes_taker_node env (u1 ∪ read_input (build_meeting_graph env) state) tr1 = (Ok u2, tr2) ->
  summarizer_node env (u2 ∪ (u1 ∪ read_input (build_meeting_graph env) state)) tr2 = (Ok u3, tr3) ->
  writer_node env (u3 ∪ (u2 ∪ (u1 ∪ read_input (build_meeting_graph env) state))) tr3 = (Ok u4, tr4) ->
  run (build_meeting_graph env) state tr
  = (([("asr", u1); ("minutes_taker", u2); ("summarizer", u3); ("writer", u4)],
      Ok (u4 ∪ (u3 ∪ (u2 ∪ (u1 ∪ read_input (build_meeting_graph env) state))))), tr4).
Proof.
  intros H1 H2 H3 H4. rewrite <- (asr_node_read_input state) in H1.
  unfold run.
  change (entry_point (build_meeting_graph env)) with (Some "asr").
  unfold recursion_limit.
  rewrite (run_from_step (build_meeting_graph env) _ "asr" "minutes_taker" (asr_node env) _ _ _ _
             ltac:(discriminate) eq_refl eq_refl H1).
  rewrite (run_from_step (build_meeting_graph env) _ "minutes_taker" "summarizer" (minutes_taker_node env)
             _ _ _ _ ltac:(discriminate) eq_refl eq_refl H2).
  rewrite (run_from_step (build_meeting_graph env) _ "summarizer" "writer" (summarizer_node env)
             _ _ _ _ ltac:(discriminate) eq_refl eq_refl H3).
  rewrite (run_from_step (build_meeting_graph env) _ "writer" END (writer_node env)
             _ _ _ _ ltac:(discriminate) eq_refl eq_refl H4).
  rewrite run_from_end. reflexivity.
Qed.

End Orchestrator.

(** ** Reading the state between stages *)

Lemma get_update_hit (key value : string) (rest state : MeetingState) :
  get_or_empty (<[key := value]> rest ∪ state) key = value.
Proof.
  unfold get_or_empty.
  rewrite (lookup_union_Some_l _ _ _ value); [reflexivity|].
  apply lookup_insert_eq.
Qed.

Lemma get_update_miss (key : string) (update state : MeetingState) :
  update !! key = None ->
  get_or_empty (update ∪ state) key = get_or_empty state key.
Proof.
  intros H. unfold get_or_empty. rewrite lookup_union_r by exact H.
  reflexivity.
Qed.

Lemma asr_update_txt (txt_text srt_text : string) (state : MeetingState) :
  get_or_empty (<["txt_content" := txt_text]> (<["srt_content" := srt_text]> ∅)
                  ∪ state) "txt_content" = txt_text.
Proof. apply get_update_hit. Qed.

Lemma asr_update_srt (txt_text srt_text : string) (state : MeetingState) :
  get_or_empty (<["txt_content" := txt_text]> (<["srt_content" := srt_text]> ∅)
                  ∪ state) "srt_content" = srt_text.
Proof.
  unfold get_or_empty.
  rewrite (lookup_union_Some_l _ _ _ srt_text); [reflexivity|].
  rewrite lookup_insert_ne by discriminate. apply lookup_insert_eq.
Qed.

Lemma single_update_miss (key other value : string) :
  key <> other -> (<[key := value]> (∅ : MeetingState)) !! other = None.
Proof. intros H. rewrite lookup_insert_ne by exact H. apply lookup_empty. Qed.

(** ** Whole runs *)

Section Runs.

Variable env : Env.

Lemma transcript_writes_count (p : Event -> bool) (task_id txt_text srt_text : string) :
  (forall dir name content, p (EvWriteText dir name content) = false) ->
  count p (transcript_writes task_id txt_text srt_text) = O.
Proof.
  intros H. unfold transcript_writes. simpl.
  destruct (truthy srt_text); simpl; rewrite ?H; reflexivity.
Qed.

Lemma transcribed_prefix_count (p : Event -> bool) (tr : Trace)
    (audio_path task_id : string) (N : nat) :
  p (EvMkdir "out") = false -> p (EvOpen audio_path) = false ->
  p (EvPost ASR_CREATE_URL audio_path) = false ->
  p (EvGet (txt_url task_id)) = false -> p (EvSleep 2) = false ->
  count p (transcribed_prefix tr audio_path task_id N) = count p tr.
Proof.
  intros H1 H2 H3 H4 H5. unfold transcribed_prefix.
  rewrite !count_app, (count_polls_other p) by assumption.
  simpl. rewrite H1, H2, H3, H4. lia.
Qed.

(** Once [asr_node] has returned both transcripts, the three remaining
    stages run in order, provided the two generation calls succeed. *)
Lemma run_after_transcribe (state : MeetingState) (tr trA : Trace)
    (body srt_text minutes summary : string) :
  let content := if truthy srt_text then srt_text else body in
  let u1 := <["txt_content" := body]> (<["srt_content" := srt_text]> ∅) in
  let u2 := <["detailed_minutes" := minutes]> ∅ in
  let u3 := <["summary" := summary]> ∅ in
  let u4 := <["final_report" :=
               compose_report summary minutes
                 (env_strftime env (count is_strftime trA) STRFTIME_FORMAT)]> ∅ in
  asr_node env state tr = (Ok u1, trA) ->
  env_generate env (count is_generate trA) MINUTES_SYSTEM_PROMPT content
    = GenText minutes ->
  env_generate env (S (count is_generate trA)) SUMMARY_SYSTEM_PROMPT body
    = GenText summary ->
  run (build_meeting_graph env) state tr
  = (([("asr", u1); ("minutes_taker", u2); ("summarizer", u3); ("writer", u4)],
      Ok (u4 ∪ (u3 ∪ (u2 ∪ (u1 ∪ read_input (build_meeting_graph env) state))))),
     trA ++ [EvGenerate MINUTES_SYSTEM_PROMPT content;
             EvGenerate SUMMARY_SYSTEM_PROMPT body;
             EvStrftime STRFTIME_FORMAT]).
Proof.
  intros content u1 u2 u3 u4 Hasr Hm Hs.
  assert (Hin : minutes_input (u1 ∪ read_input (build_meeting_graph env) state) = content).
  { unfold minutes_input, u1. rewrite asr_update_srt, asr_update_txt.
    reflexivity. }
  assert (H2 : minutes_taker_node env (u1 ∪ read_input (build_meeting_graph env) state) trA
               = (Ok u2, trA ++ [EvGenerate MINUTES_SYSTEM_PROMPT content])).
  { rewrite <- Hin. apply minutes_taker_node_ok. rewrite Hin. exact Hm. }
  assert (Htxt2 : get_or_empty (u2 ∪ (u1 ∪ read_input (build_meeting_graph env) state)) "txt_content" = body).
  { unfold u2. rewrite get_update_miss by (apply single_update_miss; discriminate).
    apply asr_update_txt. }
  assert (H3 : summarizer_node env (u2 ∪ (u1 ∪ read_input (build_meeting_graph env) state))
                 (trA ++ [EvGenerate MINUTES_SYSTEM_PROMPT content])
               = (Ok u3,
                  (trA ++ [EvGenerate MINUTES_SYSTEM_PROMPT content])
                  ++ [EvGenerate SUMMARY_SYSTEM_PROMPT body])).
  { pose proof (summarizer_node_ok env (u2 ∪ (u1 ∪ read_input (build_meeting_graph env) state))
                  (trA ++ [EvGenerate MINUTES_SYSTEM_PROMPT content])
                  summary) as Hnode.
    rewrite Htxt2 in Hnode. apply Hnode.
    rewrite count_snoc. cbn [is_generate].
    replace (count is_generate trA + 1)%nat with (S (count is_generate trA)) by lia.
    exact Hs. }
  rewrite (run_all_stages env state u1 u2 u3 _ tr _ _ _ _ Hasr H2 H3
             (writer_node_eq env _ _)).
  unfold u4, u3, u2.
  rewrite get_update_hit.
  rewrite (get_update_miss "detailed_minutes" (<["summary" := summary]> ∅))
    by (apply single_update_miss; discriminate).
  rewrite get_update_hit.
  rewrite !count_snoc. cbn [is_strftime]. rewrite !Nat.add_0_r.
  rewrite <- !app_assoc. reflexivity.
Qed.

Lemma asr_trace_count (p : Event -> bool) (tr ext : Trace)
    (audio_path task_id body srt_text : string) (N : nat) :
  poll_events (srt_url task_id) ext ->
  p (EvMkdir "out") = false -> p (EvOpen audio_path) = false ->
  p (EvPost ASR_CREATE_URL audio_path) = false ->
  (forall url, p (EvGet url) = false) -> p (EvSleep 2) = false ->
  (forall dir name content, p (EvWriteText dir name content) = false) ->
  count p (transcribed_prefix tr audio_path task_id N ++ ext
           ++ transcript_writes task_id body srt_text) = count p tr.
Proof.
  intros Hext H1 H2 H3 H4 H5 H6. rewrite !count_app.
  rewrite transcribed_prefix_count by auto.
  rewrite (poll_events_count _ _ _ Hext) by auto.
  rewrite transcript_writes_count by exact H6. lia.
Qed.

End Runs.

(** ** Runs in which the timed poll gives up *)

Section TimedTimeout.

Variable env : Env.

Lemma srt_poll_exhausted (tr : Trace) (audio_path task_id : string) (N : nat) :
  never_ready env (srt_url task_id) (count (is_get_of (srt_url task_id)) tr) 300 ->
  wait_download env (srt_url task_id) "SRT" 300
    (transcribed_prefix tr audio_path task_id N)
  = (Ok "", transcribed_prefix tr audio_path task_id N
            ++ polls (srt_url task_id) 300).
Proof.
  intros Hn. unfold wait_download. apply wait_loop_exhausted.
  rewrite transcribed_prefix_count; [exact Hn|reflexivity|reflexivity|reflexivity| |reflexivity].
  unfold is_get_of. apply bool_decide_eq_false_2. apply txt_url_ne_srt_url.
Qed.

Lemma srt_poll_success (tr : Trace) (audio_path task_id : string) (N K : nat)
    (srt_body : string) :
  (K < 300)%nat ->
  ready_after env (srt_url task_id) (count (is_get_of (srt_url task_id)) tr)
    K srt_body ->
  wait_download env (srt_url task_id) "SRT" 300
    (transcribed_prefix tr audio_path task_id N)
  = (Ok srt_body, transcribed_prefix tr audio_path task_id N
                  ++ polls (srt_url task_id) K ++ [EvGet (srt_url task_id)]).
Proof.
  intros HK Hready. unfold wait_download.
  apply wait_loop_success; [simpl; lia|].
  rewrite transcribed_prefix_count;
    [exact Hready|reflexivity|reflexivity|reflexivity| |reflexivity].
  unfold is_get_of. apply bool_decide_eq_false_2. apply txt_url_ne_srt_url.
Qed.

Lemma asr_node_srt_timeout (state : MeetingState) (tr : Trace)
    (audio_path task_id : string) (N : nat) (body : string) :
  state !! "audio_path" = Some audio_path ->
  upload_ok env tr audio_path task_id ->
  (N < 300)%nat ->
  ready_after env (txt_url task_id) (count (is_get_of (txt_url task_id)) tr) N body ->
  body <> "" ->
  never_ready env (srt_url task_id) (count (is_get_of (srt_url task_id)) tr) 300 ->
  asr_node env state tr
  = (Ok (<["txt_content" := body]> (<["srt_content" := ""]> ∅)),
     transcribed_prefix tr audio_path task_id N
     ++ polls (srt_url task_id) 300
     ++ [EvWriteText "out" (task_id +:+ ".txt") body]).
Proof.
  intros Hst Hup HN Hready Hbody Hsrt.
  destruct (asr_node_success env state tr audio_path task_id N body
              Hst Hup HN Hready Hbody) as (srt_text & ext & Hw & _ & Hasr).
  rewrite (srt_poll_exhausted tr audio_path task_id N Hsrt) in Hw.
  injection Hw as <- Hext. apply app_inv_head in Hext. subst ext.
  exact Hasr.
Qed.

End TimedTimeout.

(** ** Claims about whole runs *)

(** C1. In every run in which the upload succeeds, the TXT poll is answered
    with a non-empty body within its 300 attempts and the two generation
    calls succeed, [invoke] returns a final state (the run is [Done]) whose
    [final_report] is a non-empty string. *)
Theorem run_reaches_done_with_report (env : Env) (state : MeetingState)
    (tr : Trace) (audio_path task_id : string) (N : nat) (body : string) :
  state !! "audio_path" = Some audio_path ->
  upload_ok env tr audio_path task_id ->
  (N < 300)%nat ->
  ready_after env (txt_url task_id) (count (is_get_of (txt_url task_id)) tr) N body ->
  body <> "" ->
  generation_succeeds env tr body ->
  exists final_state tr' final_report,
    invoke (build_meeting_graph env) state tr = (Ok final_state, tr') /\
    terminal (fst (invoke (build_meeting_graph env) state tr)) = Done final_state /\
    final_state !! "final_report" = Some final_report /\
    final_report <> "".
Proof.
  intros Hst Hup HN Hready Hbody [Hgen1 Hgen2].
  destruct (asr_node_success env state tr audio_path task_id N body
              Hst Hup HN Hready Hbody) as (srt_text & ext & _ & Hext & Hasr).
  destruct (Hgen1 (if truthy srt_text then srt_text else body)) as [minutes Hm].
  destruct Hgen2 as [summary Hs].
  assert (Hcount : count is_generate
                     (transcribed_prefix tr audio_path task_id N ++ ext
                      ++ transcript_writes task_id body srt_text)
                   = count is_generate tr)
    by (apply asr_trace_count; auto).
  rewrite <- Hcount in Hm, Hs.
  pose proof (run_after_transcribe env state tr _ body srt_text minutes summary
                Hasr Hm Hs) as Hrun.
  eexists _, _, _. unfold invoke. rewrite Hrun. cbn [fst terminal].
  split; [reflexivity|]. split; [reflexivity|]. split.
  - apply lookup_union_Some_l. apply lookup_insert_eq.
  - apply compose_report_nonempty.
Qed.

(** C5. In every run in which the upload succeeds and none of the 300 TXT
    attempts is answered by a 200, [asr_node] raises the timeout, the run
    is [Failed], no stage completes, and nothing happens after the last
    poll: no generation call, no SRT request, no file written, no clock
    read. *)
Theorem plain_timeout_fails_before_generation (env : Env)
    (state : MeetingState) (tr : Trace) (audio_path task_id : string) :
  state !! "audio_path" = Some audio_path ->
  upload_ok env tr audio_path task_id ->
  never_ready env (txt_url task_id) (count (is_get_of (txt_url task_id)) tr) 300 ->
  exists tr',
    run (build_meeting_graph env) state tr
    = (([], Raise (TimeoutError TXT_TIMEOUT_MESSAGE)), tr') /\
    terminal (fst (invoke (build_meeting_graph env) state tr))
    = Failed (TimeoutError TXT_TIMEOUT_MESSAGE) /\
    tr' = tr ++ [EvMkdir "out"; EvOpen audio_path;
                 EvPost ASR_CREATE_URL audio_path]
             ++ polls (txt_url task_id) 300 /\
    count is_generate tr' = count is_generate tr /\
    count is_strftime tr' = count is_strftime tr /\
    count is_write tr' = count is_write tr /\
    count (is_get_of (srt_url task_id)) tr'
    = count (is_get_of (srt_url task_id)) tr.
Proof.
  intros Hst Hup Hnever.
  pose proof (asr_node_txt_timeout env state tr audio_path task_id
                Hst Hup Hnever) as Hasr.
  pose proof (run_asr_raises env state tr _ _ Hasr) as Hrun.
  eexists. split; [exact Hrun|].
  split; [unfold invoke; rewrite Hrun; reflexivity|].
  split; [reflexivity|].
  rewrite !count_app.
  rewrite !(count_polls_other _ (txt_url task_id)); try reflexivity.
  - cbn [count is_generate is_strftime is_write is_get_of].
    repeat split; lia.
  - unfold is_get_of. apply bool_decide_eq_false_2. apply txt_url_ne_srt_url.
Qed.

(** C6. [summarizer_node] calls the generator once, with the state's
    [txt_content] (the empty string when the key is absent) as user
    content; the value of [srt_content] plays no part. *)
Theorem summarizer_reads_plain_transcript_only (env : Env)
    (state : MeetingState) (tr : Trace) :
  snd (summarizer_node env state tr)
  = tr ++ [EvGenerate SUMMARY_SYSTEM_PROMPT (get_or_empty state "txt_content")]
  /\ forall srt_content,
       summarizer_node env (<["srt_content" := srt_content]> state) tr
       = summarizer_node env state tr.
Proof.
  split; [apply summarizer_node_trace|].
  intros srt_content. unfold summarizer_node, get_or_empty.
  rewrite lookup_insert_ne by discriminate. reflexivity.
Qed.

Lemma env_retry_txt_ready (base : nat) :
  base = O -> ready_after env_retry (txt_url "T1") base 2 "ABC".
Proof.
  intros ->. split.
  - intros i Hi. destruct i as [|[|i]]; [reflexivity|reflexivity|lia].
  - reflexivity.
Qed.

Lemma env_retry_srt_never (base n : nat) :
  never_ready env_retry (srt_url "T1") base n.
Proof.
  intros i _. unfold env_retry, scenario_env, env_get.
  rewrite bool_decide_eq_false_2
    by (intros H; symmetry in H; exact (txt_url_ne_srt_url "T1" H)).
  destruct (base + i)%nat as [|[|[|m]]]; reflexivity.
Qed.

Lemma scenario_generation_succeeds (txt srt : nat -> GetOutcome) (tr : Trace)
    (body : string) :
  generation_succeeds (scenario_env txt srt) tr body.
Proof. split; [intros content|]; eexists; reflexivity. Qed.

Lemma scenario_upload_ok (txt srt : nat -> GetOutcome) (tr : Trace)
    (audio_path : string) :
  upload_ok (scenario_env txt srt) tr audio_path "T1".
Proof. split; reflexivity. Qed.

Lemma run_reaches_done_with_report_witness :
  (initial_state !! "audio_path" = Some audio_path_str /\
   upload_ok env_retry [] audio_path_str "T1" /\
   (2 < 300)%nat /\
   ready_after env_retry (txt_url "T1")
     (count (is_get_of (txt_url "T1")) []) 2 "ABC" /\
   "ABC" <> "" /\
   generation_succeeds env_retry [] "ABC") /\
  exists final_state tr' final_report,
    invoke (build_meeting_graph env_retry) initial_state []
    = (Ok final_state, tr') /\
    terminal (fst (invoke (build_meeting_graph env_retry) initial_state []))
    = Done final_state /\
    final_state !! "final_report" = Some final_report /\
    final_report <> "".
Proof.
  assert (H1 : initial_state !! "audio_path" = Some audio_path_str)
    by (vm_compute; reflexivity).
  assert (H2 : upload_ok env_retry [] audio_path_str "T1")
    by apply scenario_upload_ok.
  assert (H3 : (2 < 300)%nat) by lia.
  assert (H4 : ready_after env_retry (txt_url "T1")
                 (count (is_get_of (txt_url "T1")) []) 2 "ABC")
    by (apply env_retry_txt_ready; reflexivity).
  assert (H5 : "ABC" <> "") by discriminate.
  assert (H6 : generation_succeeds env_retry [] "ABC")
    by apply scenario_generation_succeeds.
  split; [exact (conj H1 (conj H2 (conj H3 (conj H4 (conj H5 H6)))))|].
  exact (run_reaches_done_with_report env_retry initial_state []
           audio_path_str "T1" 2 "ABC" H1 H2 H3 H4 H5 H6).
Defined.

Lemma plain_timeout_fails_before_generation_witness :
  (initial_state !! "audio_path" = Some audio_path_str /\
   upload_ok env_timeout [] audio_path_str "T1" /\
   never_ready env_timeout (txt_url "T1")
     (count (is_get_of (txt_url "T1")) []) 300) /\
  exists tr',
    run (build_meeting_graph env_timeout) initial_state []
    = (([], Raise (TimeoutError TXT_TIMEOUT_MESSAGE)), tr') /\
    terminal (fst (invoke (build_meeting_graph env_timeout) initial_state []))
    = Failed (TimeoutError TXT_TIMEOUT_MESSAGE) /\
    tr' = [] ++ [EvMkdir "out"; EvOpen audio_path_str;
                 EvPost ASR_CREATE_URL audio_path_str]
             ++ polls (txt_url "T1") 300 /\
    count is_generate tr' = count is_generate [] /\
    count is_strftime tr' = count is_strftime [] /\
    count is_write tr' = count is_write [] /\
    count (is_get_of (srt_url "T1")) tr'
    = count (is_get_of (srt_url "T1")) [].
Proof.
  assert (H1 : initial_state !! "audio_path" = Some audio_path_str)
    by (vm_compute; reflexivity).
  assert (H2 : upload_ok env_timeout [] audio_path_str "T1")
    by apply scenario_upload_ok.
  assert (H3 : never_ready env_timeout (txt_url "T1")
                 (count (is_get_of (txt_url "T1")) []) 300)
    by apply never_200_never_ready.
  split; [exact (conj H1 (conj H2 H3))|].
  exact (plain_timeout_fails_before_generation env_timeout initial_state []
           audio_path_str "T1" H1 H2 H3).
Defined.

(** ** Claims about the DetailedMinutes stage *)

(** C2. [minutes_taker_node] calls the generator once, with [srt_content]
    as user content when it is non-empty and [txt_content] otherwise.  In
    particular a state with [txt_content = "Hello world"] and an empty
    [srt_content] makes it call the generator with ["Hello world"]; and in
    a run whose SRT poll fails on all 300 attempts, the state carries an
    empty [srt_content] and [detailed_minutes] is what the generator
    returns for the minutes prompt applied to the plain transcript. *)
Theorem minutes_taker_prefers_timed_transcript :
  (forall (env : Env) (state : MeetingState) (tr : Trace),
     snd (minutes_taker_node env state tr)
     = tr ++ [EvGenerate MINUTES_SYSTEM_PROMPT
                (if truthy (get_or_empty state "srt_content")
                 then get_or_empty state "srt_content"
                 else get_or_empty state "txt_content")]) /\
  (forall (env : Env) (state : MeetingState) (tr : Trace),
     state !! "txt_content" = Some "Hello world" ->
     state !! "srt_content" = Some "" ->
     snd (minutes_taker_node env state tr)
     = tr ++ [EvGenerate MINUTES_SYSTEM_PROMPT "Hello world"]) /\
  (forall (env : Env) (state : MeetingState) (tr : Trace)
          (audio_path task_id : string) (N : nat) (body minutes summary : string),
     state !! "audio_path" = Some audio_path ->
     upload_ok env tr audio_path task_id ->
     (N < 300)%nat ->
     ready_after env (txt_url task_id)
       (count (is_get_of (txt_url task_id)) tr) N body ->
     body <> "" ->
     never_ready env (srt_url task_id)
       (count (is_get_of (srt_url task_id)) tr) 300 ->
     env_generate env (count is_generate tr) MINUTES_SYSTEM_PROMPT body
       = GenText minutes ->
     env_generate env (S (count is_generate tr)) SUMMARY_SYSTEM_PROMPT body
       = GenText summary ->
     exists final_state tr',
       invoke (build_meeting_graph env) state tr = (Ok final_state, tr') /\
       final_state !! "srt_content" = Some "" /\
       final_state !! "detailed_minutes" = Some minutes /\
       In (EvGenerate MINUTES_SYSTEM_PROMPT body) tr').
Proof.
  split; [|split].
  - intros env state tr. apply minutes_taker_node_trace.
  - intros env state tr Htxt Hsrt. rewrite minutes_taker_node_trace.
    unfold minutes_input, get_or_empty. rewrite Htxt, Hsrt. reflexivity.
  - intros env state tr audio_path task_id N body minutes summary
      Hst Hup HN Hready Hbody Hnever Hm Hs.
    pose proof (asr_node_srt_timeout env state tr audio_path task_id N body
                  Hst Hup HN Hready Hbody Hnever) as Hasr.
    assert (Hcount : count is_generate
                       (transcribed_prefix tr audio_path task_id N
                        ++ polls (srt_url task_id) 300
                        ++ [EvWriteText "out" (task_id +:+ ".txt") body])
                     = count is_generate tr).
    { apply (asr_trace_count is_generate tr (polls (srt_url task_id) 300)
               audio_path task_id body "" N); auto.
      apply poll_events_polls. }
    rewrite <- Hcount in Hm, Hs.
    pose proof (run_after_transcribe env state tr _ body "" minutes summary
                  Hasr Hm Hs) as Hrun.
    cbv zeta in Hrun. cbn [truthy] in Hrun.
    eexists _, _. unfold invoke. rewrite Hrun.
    split; [reflexivity|]. split; [|split].
    + rewrite !lookup_union_r by (apply single_update_miss; discriminate).
      apply lookup_union_Some_l.
      rewrite lookup_insert_ne by discriminate. apply lookup_insert_eq.
    + rewrite !lookup_union_r by (apply single_update_miss; discriminate).
      apply lookup_union_Some_l. apply lookup_insert_eq.
    + apply in_or_app. right. left. reflexivity.
Qed.

Lemma minutes_taker_prefers_timed_transcript_witness :
  (* Scenario A *)
  snd (minutes_taker_node env_quick
         (<["txt_content" := "Hello world"]> (<["srt_content" := ""]> ∅)) [])
  = [] ++ [EvGenerate MINUTES_SYSTEM_PROMPT "Hello world"]
  /\
  (* a run in which the timed poll gives up *)
  exists final_state tr',
    invoke (build_meeting_graph env_retry) initial_state []
    = (Ok final_state, tr') /\
    final_state !! "srt_content" = Some "" /\
    final_state !! "detailed_minutes" = Some "LLM: ABC" /\
    In (EvGenerate MINUTES_SYSTEM_PROMPT "ABC") tr'.
Proof.
  destruct minutes_taker_prefers_timed_transcript as (_ & HA & Hrun).
  split.
  - apply HA; vm_compute; reflexivity.
  - apply (Hrun env_retry initial_state [] audio_path_str "T1" 2%nat "ABC"
             "LLM: ABC" "LLM: ABC").
    + vm_compute; reflexivity.
    + apply scenario_upload_ok.
    + lia.
    + apply env_retry_txt_ready; reflexivity.
    + discriminate.
    + apply env_retry_srt_never.
    + reflexivity.
    + reflexivity.
Defined.

(** ** Claims about the ComposeReport stage *)

Lemma string_app_assoc (a b c : string) : (a +:+ b) +:+ c = a +:+ b +:+ c.
Proof.
  induction a as [|x a IH]; [reflexivity|].
  change (String x ((a +:+ b) +:+ c) = String x (a +:+ b +:+ c)).
  f_equal. exact IH.
Qed.

Lemma string_app_nil_r (a : string) : a +:+ "" = a.
Proof.
  induction a as [|x a IH]; [reflexivity|].
  change (String x (a +:+ "") = String x a). f_equal. exact IH.
Qed.

Lemma compose_report_around_time (summary detailed_minutes now : string) :
  compose_report summary detailed_minutes now
  = report_before_time summary detailed_minutes +:+ now +:+ report_after_time.
Proof.
  unfold compose_report, report_before_time, report_after_time, report_footer.
  rewrite !string_app_assoc. reflexivity.
Qed.

(** C7. [writer_node] composes its output from the title, the separator,
    the summary, the separator, the detailed minutes, the separator and
    the footer with the generation time, in that order.  Its only effect
    is one reading of the clock: no request, no generation call, no file.
    Two invocations on states with the same [summary] and
    [detailed_minutes] and the same clock reading return byte-identical
    reports; with different clock readings the reports differ only in the
    time embedded between a fixed prefix and a fixed suffix. *)
Theorem writer_node_is_deterministic_composition :
  (forall (env : Env) (state : MeetingState) (tr : Trace),
     let now := env_strftime env (count is_strftime tr) STRFTIME_FORMAT in
     let summary := get_or_empty state "summary" in
     let detailed_minutes := get_or_empty state "detailed_minutes" in
     writer_node env state tr
     = (Ok (<["final_report" :=
               REPORT_TITLE +:+ REPORT_SEPARATOR +:+ summary
               +:+ REPORT_SEPARATOR +:+ detailed_minutes
               +:+ REPORT_SEPARATOR +:+ report_footer now]> ∅),
        tr ++ [EvStrftime STRFTIME_FORMAT]) /\
     compose_report summary detailed_minutes now
     = report_before_time summary detailed_minutes +:+ now +:+ report_after_time) /\
  (forall (env1 env2 : Env) (state1 state2 : MeetingState) (tr1 tr2 : Trace),
     get_or_empty state1 "summary" = get_or_empty state2 "summary" ->
     get_or_empty state1 "detailed_minutes"
     = get_or_empty state2 "detailed_minutes" ->
     env_strftime env1 (count is_strftime tr1) STRFTIME_FORMAT
     = env_strftime env2 (count is_strftime tr2) STRFTIME_FORMAT ->
     fst (writer_node env1 state1 tr1) = fst (writer_node env2 state2 tr2)).
Proof.
  split.
  - intros env state tr. cbv zeta. split; [reflexivity|].
    apply compose_report_around_time.
  - intros env1 env2 state1 state2 tr1 tr2 Hs Hd Hnow.
    rewrite !writer_node_eq. cbn [fst]. rewrite Hs, Hd, Hnow. reflexivity.
Qed.

Lemma writer_node_is_deterministic_composition_witness :
  fst (writer_node env_quick
         (<["summary" := "S"]> (<["detailed_minutes" := "D"]> ∅)) [])
  = fst (writer_node env_retry
           (<["summary" := "S"]> (<["detailed_minutes" := "D"]>
              (<["txt_content" := "ABC"]> ∅)))
           [EvStrftime STRFTIME_FORMAT; EvSleep 2]).
Proof.
  destruct writer_node_is_deterministic_composition as [_ H].
  apply H; vm_compute; reflexivity.
Defined.

(** C10. [writer_node] returns for every state, also when [summary] and
    [detailed_minutes] are absent or empty; its [final_report] is never
    empty and contains the title, the separator and the footer.  On empty
    inputs the report is the title, three separators and the footer. *)
Theorem writer_node_total (env : Env) (state : MeetingState) (tr : Trace) :
  let now := env_strftime env (count is_strftime tr) STRFTIME_FORMAT in
  exists final_report,
    writer_node env state tr
    = (Ok (<["final_report" := final_report]> ∅),
       tr ++ [EvStrftime STRFTIME_FORMAT]) /\
    final_report <> "" /\
    contains final_report REPORT_TITLE /\
    contains final_report REPORT_SEPARATOR /\
    contains final_report (report_footer now) /\
    (get_or_empty state "summary" = "" ->
     get_or_empty state "detailed_minutes" = "" ->
     final_report
     = REPORT_TITLE +:+ REPORT_SEPARATOR +:+ REPORT_SEPARATOR
       +:+ REPORT_SEPARATOR +:+ report_footer now).
Proof.
  cbv zeta. eexists. split; [apply writer_node_eq|].
  split; [apply compose_report_nonempty|].
  split; [|split; [|split]].
  - exists "", (REPORT_SEPARATOR +:+ get_or_empty state "summary"
                +:+ REPORT_SEPARATOR +:+ get_or_empty state "detailed_minutes"
                +:+ REPORT_SEPARATOR
                +:+ report_footer
                      (env_strftime env (count is_strftime tr) STRFTIME_FORMAT)).
    reflexivity.
  - exists REPORT_TITLE, (get_or_empty state "summary"
                +:+ REPORT_SEPARATOR +:+ get_or_empty state "detailed_minutes"
                +:+ REPORT_SEPARATOR
                +:+ report_footer
                      (env_strftime env (count is_strftime tr) STRFTIME_FORMAT)).
    reflexivity.
  - exists (REPORT_TITLE +:+ REPORT_SEPARATOR +:+ get_or_empty state "summary"
            +:+ REPORT_SEPARATOR +:+ get_or_empty state "detailed_minutes"
            +:+ REPORT_SEPARATOR), "".
    rewrite string_app_nil_r. unfold compose_report.
    rewrite !string_app_assoc. reflexivity.
  - intros Hs Hd. unfold compose_report. rewrite Hs, Hd. reflexivity.
Qed.

Lemma writer_node_total_witness :
  exists final_report,
    writer_node env_quick ∅ []
    = (Ok (<["final_report" := final_report]> ∅), [EvStrftime STRFTIME_FORMAT]) /\
    final_report
    = REPORT_TITLE +:+ REPORT_SEPARATOR +:+ REPORT_SEPARATOR
      +:+ REPORT_SEPARATOR +:+ report_footer "2024-01-01 00:00:00".
Proof.
  destruct (writer_node_total env_quick ∅ [])
    as (final_report & Heq & _ & _ & _ & _ & Hempty).
  exists final_report. split; [exact Heq|].
  apply Hempty; reflexivity.
Defined.

(** ** Claims about what the Transcribe stage stores and creates *)

Section TranscribeEffects.

Variable env : Env.

(** Whatever the environment answers, one execution of [asr_node] issues
    the task-creation request at most once, and exactly once when the
    audio file opens. *)
Lemma asr_node_posts (state : MeetingState) (tr : Trace) :
  exists r ext,
    asr_node env state tr = (r, tr ++ ext) /\
    (count is_post ext <= 1)%nat /\
    (forall audio_path,
       state !! "audio_path" = Some audio_path ->
       env_open env (count is_open tr) audio_path = OpenOk ->
       count is_post ext = 1%nat).
Proof.
  unfold asr_node. destruct (state !! "audio_path") as [audio_path|] eqn:Hst.
  2:{ exists (Raise (KeyError "audio_path")), []. rewrite app_nil_r.
      split; [reflexivity|]. split; [simpl; lia|]. intros ? H. discriminate H. }
  rewrite (bind_ok _ _ tr (tr ++ [EvMkdir "out"]) tt) by reflexivity.
  destruct (asr_create_task_posts env (tr ++ [EvMkdir "out"]) audio_path)
    as (r0 & ext0 & Hcreate & Hle & Hone & _).
  assert (Hone' : forall p, Some audio_path = Some p ->
                    env_open env (count is_open tr) p = OpenOk ->
                    count is_post ext0 = 1%nat).
  { intros p [= <-] Hopen. apply Hone. rewrite count_snoc. simpl.
    rewrite Nat.add_0_r. exact Hopen. }
  destruct r0 as [task_id|e].
  2:{ rewrite (bind_raise _ _ _ _ _ Hcreate).
      exists (Raise e), ([EvMkdir "out"] ++ ext0). rewrite app_assoc.
      split; [reflexivity|]. rewrite count_app. simpl.
      split; [lia|]. intros p Hp Ho. rewrite (Hone' p Hp Ho). reflexivity. }
  rewrite (bind_ok _ _ _ _ _ Hcreate).
  destruct (wait_download_never_raises env (txt_url task_id) "TXT" 300
              ((tr ++ [EvMkdir "out"]) ++ ext0))
    as (txt_text & ext1 & Htxt & Hext1).
  rewrite (bind_ok _ _ _ _ _ Htxt).
  pose proof (poll_events_count is_post _ _ Hext1 eq_refl eq_refl) as Hp1.
  destruct (truthy txt_text); cbn [negb].
  2:{ exists (Raise (TimeoutError TXT_TIMEOUT_MESSAGE)),
        ([EvMkdir "out"] ++ ext0 ++ ext1).
      rewrite !app_assoc. split; [reflexivity|].
      rewrite !count_app, Hp1. simpl.
      split; [lia|]. intros p Hp Ho. rewrite (Hone' p Hp Ho). reflexivity. }
  destruct (wait_download_never_raises env (srt_url task_id) "SRT" 300
              (((tr ++ [EvMkdir "out"]) ++ ext0) ++ ext1))
    as (srt_text & ext2 & Hsrt & Hext2).
  rewrite (bind_ok _ _ _ _ _ Hsrt).
  pose proof (poll_events_count is_post _ _ Hext2 eq_refl eq_refl) as Hp2.
  unfold write_text, emit, ret, bind.
  exists (Ok (<["txt_content" := txt_text]>
                (<["srt_content" := if truthy srt_text then srt_text else ""]> ∅))),
    ([EvMkdir "out"] ++ ext0 ++ ext1 ++ ext2
     ++ transcript_writes task_id txt_text srt_text).
  split.
  - unfold transcript_writes.
    destruct (truthy srt_text); rewrite <- !app_assoc; reflexivity.
  - rewrite !count_app, Hp1, Hp2.
    rewrite transcript_writes_count by reflexivity. simpl.
    split; [lia|]. intros p Hp Ho. rewrite (Hone' p Hp Ho). reflexivity.
Qed.

End TranscribeEffects.

(** C8, as the code has it. In every run that passes the plain-text check,
    [asr_node] polls the SRT endpoint and then writes the plain transcript
    to [out/<task_id>.txt]; it writes the timed transcript to
    [out/<task_id>.srt] exactly when the SRT poll returned a non-empty
    text.  When the SRT poll gives up, the timed transcript is empty and
    no timed file is written; when the endpoint answers 200, the timed
    transcript is the body of that answer.  These are the only files the
    stage writes, and they come last. *)
Theorem asr_node_persists_transcripts (env : Env) (state : MeetingState)
    (tr : Trace) (audio_path task_id : string) (N : nat) (body : string) :
  state !! "audio_path" = Some audio_path ->
  upload_ok env tr audio_path task_id ->
  (N < 300)%nat ->
  ready_after env (txt_url task_id) (count (is_get_of (txt_url task_id)) tr) N body ->
  body <> "" ->
  exists srt_text srt_polls,
    asr_node env state tr
    = (Ok (<["txt_content" := body]> (<["srt_content" := srt_text]> ∅)),
       tr ++ [EvMkdir "out"; EvOpen audio_path;
              EvPost ASR_CREATE_URL audio_path]
          ++ polls (txt_url task_id) N ++ [EvGet (txt_url task_id)]
          ++ srt_polls
          ++ EvWriteText "out" (task_id +:+ ".txt") body
             :: (if truthy srt_text
                 then [EvWriteText "out" (task_id +:+ ".srt") srt_text]
                 else [])) /\
    poll_events (srt_url task_id) srt_polls /\
    (never_ready env (srt_url task_id)
       (count (is_get_of (srt_url task_id)) tr) 300 ->
     srt_text = "" /\ srt_polls = polls (srt_url task_id) 300) /\
    (forall K srt_body,
       (K < 300)%nat ->
       ready_after env (srt_url task_id)
         (count (is_get_of (srt_url task_id)) tr) K srt_body ->
       srt_text = srt_body /\
       srt_polls = polls (srt_url task_id) K ++ [EvGet (srt_url task_id)]).
Proof.
  intros Hst Hup HN Hready Hbody.
  destruct (asr_node_success env state tr audio_path task_id N body
              Hst Hup HN Hready Hbody) as (srt_text & ext & Hw & Hext & Hasr).
  exists srt_text, ext. split; [|split; [exact Hext|split]].
  - rewrite Hasr. unfold transcribed_prefix, transcript_writes.
    rewrite <- !app_assoc. reflexivity.
  - intros Hnever.
    rewrite (srt_poll_exhausted env tr audio_path task_id N Hnever) in Hw.
    injection Hw as <- Hpolls. apply app_inv_head in Hpolls.
    split; [reflexivity|symmetry; exact Hpolls].
  - intros K srt_body HK Hsrt.
    rewrite (srt_poll_success env tr audio_path task_id N K srt_body HK Hsrt)
      in Hw.
    injection Hw as <- Hpolls. apply app_inv_head in Hpolls.
    split; [reflexivity|symmetry; exact Hpolls].
Qed.

(** Both branches: the SRT poll gives up and only the plain file is
    written; the SRT endpoint answers and both files are written. *)
Lemma asr_node_persists_transcripts_witness :
  asr_node env_retry initial_state []
  = (Ok (<["txt_content" := "ABC"]> (<["srt_content" := ""]> ∅)),
     [] ++ [EvMkdir "out"; EvOpen audio_path_str;
            EvPost ASR_CREATE_URL audio_path_str]
        ++ polls (txt_url "T1") 2 ++ [EvGet (txt_url "T1")]
        ++ polls (srt_url "T1") 300
        ++ [EvWriteText "out" "T1.txt" "ABC"])
  /\
  asr_node env_quick initial_state []
  = (Ok (<["txt_content" := "ABC"]> (<["srt_content" := "00:00:00 ABC"]> ∅)),
     [] ++ [EvMkdir "out"; EvOpen audio_path_str;
            EvPost ASR_CREATE_URL audio_path_str]
        ++ polls (txt_url "T1") 0 ++ [EvGet (txt_url "T1")]
        ++ (polls (srt_url "T1") 0 ++ [EvGet (srt_url "T1")])
        ++ [EvWriteText "out" "T1.txt" "ABC";
            EvWriteText "out" "T1.srt" "00:00:00 ABC"]).
Proof.
  split.
  - destruct (asr_node_persists_transcripts env_retry initial_state []
                audio_path_str "T1" 2 "ABC")
      as (srt_text & srt_polls & Heq & _ & Hnever & _).
    + vm_compute; reflexivity.
    + apply scenario_upload_ok.
    + lia.
    + apply env_retry_txt_ready; reflexivity.
    + discriminate.
    + destruct (Hnever (env_retry_srt_never _ _)) as [-> ->]. exact Heq.
  - destruct (asr_node_persists_transcripts env_quick initial_state []
                audio_path_str "T1" 0 "ABC")
      as (srt_text & srt_polls & Heq & _ & _ & Hanswer).
    + vm_compute; reflexivity.
    + apply scenario_upload_ok.
    + lia.
    + split; [intros i Hi; lia|reflexivity].
    + discriminate.
    + destruct (Hanswer 0%nat "00:00:00 ABC") as [-> ->].
      * lia.
      * split; [intros i Hi; lia|].
        unfold env_quick, scenario_env, env_get.
        rewrite bool_decide_eq_false_2
          by (intros H; symmetry in H; exact (txt_url_ne_srt_url "T1" H)).
        reflexivity.
      * exact Heq.
Defined.

(** C8 as stated fails: a run that passes the plain-text check while the
    SRT poll gives up writes one file only, [out/T1.txt]. *)
Lemma timed_transcript_not_persisted_when_empty :
  exists tr',
    asr_node env_retry initial_state []
    = (Ok (<["txt_content" := "ABC"]> (<["srt_content" := ""]> ∅)), tr') /\
    tr' = [EvMkdir "out"; EvOpen audio_path_str;
           EvPost ASR_CREATE_URL audio_path_str]
          ++ polls (txt_url "T1") 2 ++ [EvGet (txt_url "T1")]
          ++ polls (srt_url "T1") 300
          ++ [EvWriteText "out" "T1.txt" "ABC"] /\
    count is_write tr' = 1%nat /\
    ~ (exists content, In (EvWriteText "out" "T1.srt" content) tr').
Proof.
  eexists. split.
  - apply (asr_node_srt_timeout env_retry initial_state [] audio_path_str
             "T1" 2 "ABC").
    + vm_compute; reflexivity.
    + apply scenario_upload_ok.
    + lia.
    + apply env_retry_txt_ready; reflexivity.
    + discriminate.
    + apply env_retry_srt_never.
  - split; [unfold transcribed_prefix; rewrite <- !app_assoc; reflexivity|].
    split.
    + unfold transcribed_prefix. rewrite !count_app.
      rewrite !(count_polls_other is_write) by reflexivity. reflexivity.
    + intros [content Hin]. unfold transcribed_prefix in Hin.
      assert (Hpolls : forall url k e, In e (polls url k) -> is_write e = false).
      { intros url k e. induction k as [|k IH]; simpl; [tauto|].
        intros [<-|[<-|H]]; auto. }
      assert (Hall : forall e, In e
                ([] ++ [EvMkdir "out"; EvOpen audio_path_str;
                        EvPost ASR_CREATE_URL audio_path_str]
                 ++ polls (txt_url "T1") 2 ++ [EvGet (txt_url "T1")]) ->
                is_write e = false).
      { intros e He. simpl in He.
        destruct He as [<-|[<-|[<-|[<-|[<-|[<-|[<-|[<-|[]]]]]]]]]; reflexivity. }
      apply in_app_or in Hin. destruct Hin as [Hin|Hin];
        [apply Hall in Hin; discriminate Hin|].
      apply in_app_or in Hin. destruct Hin as [Hin|Hin];
        [apply Hpolls in Hin; discriminate Hin|].
      simpl in Hin. destruct Hin as [H|[]]. discriminate H.
Qed.

(** C9. One execution of the entry point should create one task.  The
    code does otherwise: [main] runs the graph to its end through
    [app.stream] and then runs it again through [app.invoke], and each
    pass executes [asr_node].  On a service that answers at once, one
    execution of [main] ends normally having issued the task-creation
    request twice. *)
Theorem main_creates_task_twice :
  fst (main env_quick []) = Ok tt /\
  count is_post (snd (main env_quick [])) = 2%nat /\
  List.filter is_post (snd (main env_quick []))
  = [EvPost ASR_CREATE_URL audio_path_str;
     EvPost ASR_CREATE_URL audio_path_str].
Proof. repeat split; vm_compute; reflexivity. Qed.

(** ** The entry point *)

(** [main] on a well-behaved service: the existence check, two complete
    passes over the four stages, then the report file. *)
Example main_trace_on_quick_service :
  List.map (fun e => match e with
                     | EvGenerate system _ => EvGenerate "" ""
                     | _ => e
                     end)
    (snd (main env_quick []))
  = [EvExists audio_path_str;
     EvMkdir "out"; EvOpen audio_path_str;
     EvPost ASR_CREATE_URL audio_path_str;
     EvGet (txt_url "T1"); EvGet (srt_url "T1");
     EvWriteText "out" "T1.txt" "ABC";
     EvWriteText "out" "T1.srt" "00:00:00 ABC";
     EvGenerate "" ""; EvGenerate "" ""; EvStrftime STRFTIME_FORMAT;
     EvMkdir "out"; EvOpen audio_path_str;
     EvPost ASR_CREATE_URL audio_path_str;
     EvGet (txt_url "T1"); EvGet (srt_url "T1");
     EvWriteText "out" "T1.txt" "ABC";
     EvWriteText "out" "T1.srt" "00:00:00 ABC";
     EvGenerate "" ""; EvGenerate "" ""; EvStrftime STRFTIME_FORMAT;
     EvMkdir "out";
     EvWriteText "out" "meeting_report.md"
       (compose_report "LLM: ABC" "LLM: 00:00:00 ABC" "2024-01-01 00:00:00")].
Proof. vm_compute; reflexivity. Qed.

(** Scenario D: when the audio file does not exist, [main] returns after
    the existence check; no request is made. *)
Example main_without_audio :
  main env_no_audio [] = (Ok tt, [EvExists audio_path_str]).
Proof. reflexivity. Qed.

(** * Further properties of the code *)

(** ** More about [wait_download] *)

Lemma slept_app (a b : Trace) : slept (a ++ b) = slept a + slept b.
Proof.
  induction a as [|e a IH]; [reflexivity|].
  destruct e; simpl; rewrite ?IH; lia.
Qed.

Lemma slept_polls (url : string) (k : nat) : slept (polls url k) = 2 * Z.of_nat k.
Proof.
  induction k as [|k IH]; [reflexivity|].
  change (slept (polls url (S k))) with (2 + slept (polls url k)). lia.
Qed.

(** X1. A budget that is zero or negative means no attempt at all:
    [range(max_tries)] is empty, so [wait_download] returns the empty
    string without issuing a request or sleeping. *)
Theorem wait_download_no_budget (env : Env) (url file_type : string)
    (max_tries : Z) (tr : Trace) :
  max_tries <= 0 ->
  wait_download env url file_type max_tries tr = (Ok "", tr).
Proof.
  intros H. unfold wait_download.
  replace (Z.to_nat max_tries) with O by lia. reflexivity.
Qed.

Lemma wait_download_no_budget_witness :
  -3 <= 0 /\
  wait_download env_quick (txt_url "T1") "TXT" (-3) [] = (Ok "", []).
Proof.
  split; [lia|].
  apply (wait_download_no_budget env_quick (txt_url "T1") "TXT" (-3) []). lia.
Defined.

(** X2. Whatever the endpoint answers, [wait_download] stays within its
    budget: it issues at most [max_tries] requests, all of them to [url],
    sleeps at most once per request, always for two seconds, and so
    never sleeps longer than [2 * max_tries] seconds in total. *)
Theorem wait_download_within_budget (env : Env) (url file_type : string)
    (max_tries : Z) (tr : Trace) :
  exists text ext,
    wait_download env url file_type max_tries tr = (Ok text, tr ++ ext) /\
    (count is_get ext <= Z.to_nat max_tries)%nat /\
    count (is_get_of url) ext = count is_get ext /\
    (count is_sleep ext <= count is_get ext)%nat /\
    slept ext = 2 * Z.of_nat (count is_sleep ext) /\
    slept ext <= 2 * Z.max 0 max_tries.
Proof.
  unfold wait_download.
  destruct (wait_loop_cases env url (Z.to_nat max_tries) tr)
    as [[_ He]|(k & body & Hk & _ & He)].
  - exists "", (polls url (Z.to_nat max_tries)). split; [exact He|].
    rewrite count_polls_get, count_polls_get_of, count_polls_sleep, slept_polls.
    repeat split; lia.
  - exists body, (polls url k ++ [EvGet url]). split; [exact He|].
    rewrite !count_app, slept_app, slept_polls.
    rewrite count_polls_get, count_polls_get_of, count_polls_sleep.
    cbn [count is_get is_get_of is_sleep slept].
    rewrite bool_decide_eq_true_2 by reflexivity.
    repeat split; lia.
Qed.

(** X3. A non-empty result of [wait_download] is always the body of a 200
    answer, namely of the first ready answer of the endpoint, which came
    within the budget. *)
Theorem wait_download_result_is_first_ready_body (env : Env)
    (url file_type : string) (max_tries : Z) (tr tr' : Trace) (text : string) :
  wait_download env url file_type max_tries tr = (Ok text, tr') ->
  text <> "" ->
  exists k,
    (k < Z.to_nat max_tries)%nat /\
    ready_after env url (count (is_get_of url) tr) k text /\
    tr' = tr ++ polls url k ++ [EvGet url].
Proof.
  unfold wait_download. intros Heq Htext.
  destruct (wait_loop_cases env url (Z.to_nat max_tries) tr)
    as [[_ He]|(k & body & Hk & Hready & He)];
    rewrite He in Heq; injection Heq as <- <-.
  - contradiction Htext. reflexivity.
  - exists k. split; [exact Hk|]. split; [exact Hready|reflexivity].
Qed.

Lemma wait_download_result_is_first_ready_body_witness :
  exists k,
    (k < Z.to_nat 300)%nat /\
    ready_after env_retry (txt_url "T1")
      (count (is_get_of (txt_url "T1")) []) k "ABC" /\
    [] ++ polls (txt_url "T1") 2 ++ [EvGet (txt_url "T1")]
    = [] ++ polls (txt_url "T1") k ++ [EvGet (txt_url "T1")].
Proof.
  apply (wait_download_result_is_first_ready_body env_retry (txt_url "T1")
           "TXT" 300 [] _ "ABC").
  - vm_compute; reflexivity.
  - discriminate.
Defined.

Lemma ready_body_ready (o : GetOutcome) :
  ready o = match ready_body o with Some _ => true | None => false end.
Proof.
  destruct o as [sc t| |m]; simpl; [|reflexivity|reflexivity].
  destruct (sc =? 200); reflexivity.
Qed.

(** X4. The poll does not tell one kind of failure from another: a status
    other than 200, a read timeout and any other request exception all
    cost one attempt and one sleep.  Two services that are ready on the
    same attempts with the same bodies make [wait_download] behave the
    same. *)
Theorem wait_download_ignores_failure_kind (env1 env2 : Env)
    (url file_type : string) (max_tries : Z) (tr : Trace) :
  (forall i, ready_body (env_get env1 url i) = ready_body (env_get env2 url i)) ->
  wait_download env1 url file_type max_tries tr
  = wait_download env2 url file_type max_tries tr.
Proof.
  intros Hsame. unfold wait_download.
  generalize (Z.to_nat max_tries) as n. intros n. revert tr.
  induction n as [|n IH]; intros tr; [reflexivity|].
  specialize (Hsame (count (is_get_of url) tr)).
  destruct (ready (env_get env1 url (count (is_get_of url) tr))) eqn:H1.
  - pose proof H1 as H2. rewrite ready_body_ready in H1, H2.
    rewrite Hsame in H2.
    destruct (env_get env1 url (count (is_get_of url) tr)) as [sc1 t1| |m1] eqn:E1;
      simpl in H1, Hsame; try discriminate.
    destruct (sc1 =? 200) eqn:Hsc1; [|discriminate].
    apply Z.eqb_eq in Hsc1. subst sc1.
    destruct (env_get env2 url (count (is_get_of url) tr)) as [sc2 t2| |m2] eqn:E2;
      simpl in H2, Hsame; try discriminate.
    destruct (sc2 =? 200) eqn:Hsc2; [|discriminate].
    apply Z.eqb_eq in Hsc2. subst sc2. injection Hsame as ->.
    rewrite (wait_loop_ready env1 url n tr t2 E1).
    rewrite (wait_loop_ready env2 url n tr t2 E2). reflexivity.
  - pose proof H1 as H2. rewrite ready_body_ready in H2. rewrite Hsame in H2.
    rewrite <- ready_body_ready in H2.
    rewrite (wait_loop_pending env1 url n tr H1).
    rewrite (wait_loop_pending env2 url n tr H2). apply IH.
Qed.

Lemma wait_download_ignores_failure_kind_witness :
  wait_download env_timeout (txt_url "T1") "TXT" 300 []
  = wait_download env_all_404 (txt_url "T1") "TXT" 300 [].
Proof.
  apply (wait_download_ignores_failure_kind env_timeout env_all_404
           (txt_url "T1") "TXT" 300 []).
  intros i. unfold env_timeout, env_all_404, scenario_env, env_get.
  rewrite bool_decide_eq_true_2 by reflexivity.
  destruct i as [|[|[|i]]]; reflexivity.
Defined.

(** X5. A poll that gives up has slept two seconds after every attempt,
    the last one included: [2 * max_tries] seconds, ten minutes for the
    300 attempts [asr_node] allows. *)
Theorem wait_download_exhausted_sleep_time (env : Env)
    (url file_type : string) (max_tries : Z) (tr : Trace) :
  0 <= max_tries ->
  never_ready env url (count (is_get_of url) tr) (Z.to_nat max_tries) ->
  slept (snd (wait_download env url file_type max_tries tr))
  = slept tr + 2 * max_tries.
Proof.
  intros Hpos Hn. unfold wait_download.
  rewrite (wait_loop_exhausted env url _ tr Hn). cbn [snd].
  rewrite slept_app, slept_polls. lia.
Qed.

Lemma wait_download_exhausted_sleep_time_witness :
  slept (snd (wait_download env_timeout (txt_url "T1") "TXT" 300 []))
  = slept [] + 2 * 300.
Proof.
  apply (wait_download_exhausted_sleep_time env_timeout (txt_url "T1") "TXT"
           300 []); [lia|apply never_200_never_ready].
Defined.

(** ** More about the Transcribe stage *)

(** X6. A state without the key [audio_path] makes the run fail with
    [KeyError] before anything is done: no directory is created, no file
    opened, no request sent. *)
Theorem run_without_audio_path_key (env : Env) (state : MeetingState)
    (tr : Trace) :
  state !! "audio_path" = None ->
  run (build_meeting_graph env) state tr
  = (([], Raise (KeyError "audio_path")), tr).
Proof.
  intros H. apply run_asr_raises. unfold asr_node. rewrite H. reflexivity.
Qed.

Lemma run_without_audio_path_key_witness :
  run (build_meeting_graph env_quick) (<["txt_content" := "ABC"]> ∅) []
  = (([], Raise (KeyError "audio_path")), []).
Proof.
  apply (run_without_audio_path_key env_quick (<["txt_content" := "ABC"]> ∅) []).
  vm_compute; reflexivity.
Defined.

(** X7. When the audio file cannot be found, [asr_node] re-raises
    [FileNotFoundError] and the run fails; by then the output directory
    has been created, but nothing was uploaded and nothing polled. *)
Theorem run_audio_file_not_found (env : Env) (state : MeetingState)
    (tr : Trace) (audio_path : string) :
  state !! "audio_path" = Some audio_path ->
  env_open env (count is_open tr) audio_path = OpenNotFound ->
  run (build_meeting_graph env) state tr
  = (([], Raise (FileNotFoundError audio_path)),
     tr ++ [EvMkdir "out"; EvOpen audio_path]).
Proof.
  intros Hst Hopen. apply run_asr_raises. unfold asr_node. rewrite Hst.
  rewrite (bind_ok _ _ tr (tr ++ [EvMkdir "out"]) tt) by reflexivity.
  unfold asr_create_task, bind, open_rb.
  rewrite count_snoc. cbn [is_open]. rewrite Nat.add_0_r, Hopen.
  unfold raise. rewrite <- app_assoc. reflexivity.
Qed.

Lemma run_audio_file_not_found_witness :
  run (build_meeting_graph env_no_audio) initial_state []
  = (([], Raise (FileNotFoundError audio_path_str)),
     [] ++ [EvMkdir "out"; EvOpen audio_path_str]).
Proof.
  apply (run_audio_file_not_found env_no_audio initial_state [] audio_path_str).
  - vm_compute; reflexivity.
  - reflexivity.
Defined.

(** X8. The upload step yields a task id exactly when the file opens, the
    response status is outside 400..599 and the response body carries an
    id.  In particular a status that is neither 2xx nor an error status,
    such as a redirect, is accepted when an id comes with it. *)
Theorem asr_create_task_succeeds_iff (env : Env) (tr : Trace)
    (audio_path task_id : string) :
  (exists tr', asr_create_task env audio_path tr = (Ok task_id, tr'))
  <-> upload_ok env tr audio_path task_id.
Proof.
  split.
  - intros [tr' H]. exact (asr_create_task_inv env tr tr' audio_path task_id H).
  - intros H. eexists. apply asr_create_task_ok. exact H.
Qed.

Lemma asr_create_task_succeeds_iff_witness :
  exists tr', asr_create_task env_redirect audio_path_str [] = (Ok "T2", tr').
Proof.
  apply (asr_create_task_succeeds_iff env_redirect [] audio_path_str "T2").
  split; reflexivity.
Defined.

(** X9. When the upload does not yield a task id, [asr_node] raises and
    the stage is over: no result is polled, no file written, no
    generation call made, and the upload is not tried again. *)
Theorem asr_node_upload_failure (env : Env) (state : MeetingState)
    (tr : Trace) (audio_path : string) :
  state !! "audio_path" = Some audio_path ->
  (forall task_id, ~ upload_ok env tr audio_path task_id) ->
  exists e ext,
    asr_node env state tr = (Raise e, tr ++ EvMkdir "out" :: ext) /\
    (count is_post ext <= 1)%nat /\
    count is_get ext = O /\
    count is_write ext = O /\
    count is_generate ext = O.
Proof.
  intros Hst Hno. unfold asr_node. rewrite Hst.
  rewrite (bind_ok _ _ tr (tr ++ [EvMkdir "out"]) tt) by reflexivity.
  destruct (asr_create_task_posts env (tr ++ [EvMkdir "out"]) audio_path)
    as (r & ext & Hcreate & Hle & _ & Hget & Hwrite & Hgen).
  destruct r as [task_id|e].
  - exfalso. apply (Hno task_id).
    pose proof (asr_create_task_inv env _ _ _ _ Hcreate) as Hup.
    destruct Hup as [Ho Hp]. rewrite count_snoc in Ho, Hp.
    cbn [is_open is_post] in Ho, Hp. rewrite Nat.add_0_r in Ho, Hp.
    split; assumption.
  - exists e, ext. rewrite (bind_raise _ _ _ _ _ Hcreate).
    rewrite <- app_assoc. repeat split; assumption.
Qed.

Lemma asr_node_upload_failure_witness :
  exists e ext,
    asr_node env_rejected initial_state []
    = (Raise e, [] ++ EvMkdir "out" :: ext) /\
    (count is_post ext <= 1)%nat /\
    count is_get ext = O /\
    count is_write ext = O /\
    count is_generate ext = O.
Proof.
  apply (asr_node_upload_failure env_rejected initial_state [] audio_path_str).
  - vm_compute; reflexivity.
  - intros task_id [_ H]. discriminate H.
Defined.

(** X10. A 200 answer with an empty body on the TXT endpoint is treated
    like a timeout: [asr_node] raises [TimeoutError] right after that
    answer, without polling the SRT endpoint and without writing a file. *)
Theorem asr_node_empty_plain_transcript (env : Env) (state : MeetingState)
    (tr : Trace) (audio_path task_id : string) (N : nat) :
  state !! "audio_path" = Some audio_path ->
  upload_ok env tr audio_path task_id ->
  (N < 300)%nat ->
  ready_after env (txt_url task_id) (count (is_get_of (txt_url task_id)) tr) N "" ->
  asr_node env state tr
  = (Raise (TimeoutError TXT_TIMEOUT_MESSAGE),
     tr ++ [EvMkdir "out"; EvOpen audio_path; EvPost ASR_CREATE_URL audio_path]
        ++ polls (txt_url task_id) N ++ [EvGet (txt_url task_id)]).
Proof.
  intros Hst Hup HN Hready.
  unfold asr_node. rewrite Hst.
  rewrite (bind_ok _ _ tr (tr ++ [EvMkdir "out"]) tt) by reflexivity.
  assert (Hup' : upload_ok env (tr ++ [EvMkdir "out"]) audio_path task_id).
  { destruct Hup as [Ho Hp]. split; rewrite count_snoc; simpl;
      rewrite Nat.add_0_r; assumption. }
  rewrite (bind_ok _ _ _ _ _ (asr_create_task_ok _ _ _ _ Hup')).
  assert (Htxt : wait_download env (txt_url task_id) "TXT" 300
            ((tr ++ [EvMkdir "out"])
               ++ [EvOpen audio_path; EvPost ASR_CREATE_URL audio_path])
          = (Ok "", transcribed_prefix tr audio_path task_id N)).
  { unfold wait_download, transcribed_prefix.
    rewrite (wait_loop_success env _ _ N _ "").
    - rewrite <- !app_assoc. reflexivity.
    - simpl. lia.
    - rewrite !count_app. simpl. rewrite !Nat.add_0_r. exact Hready. }
  rewrite (bind_ok _ _ _ _ _ Htxt). reflexivity.
Qed.

Lemma asr_node_empty_plain_transcript_witness :
  asr_node env_empty_txt initial_state []
  = (Raise (TimeoutError TXT_TIMEOUT_MESSAGE),
     [] ++ [EvMkdir "out"; EvOpen audio_path_str;
            EvPost ASR_CREATE_URL audio_path_str]
        ++ polls (txt_url "T1") 0 ++ [EvGet (txt_url "T1")]).
Proof.
  apply (asr_node_empty_plain_transcript env_empty_txt initial_state []
           audio_path_str "T1" 0).
  - vm_compute; reflexivity.
  - apply scenario_upload_ok.
  - lia.
  - split; [intros i Hi; lia|reflexivity].
Defined.

Lemma truthy_false (s : string) : truthy s = false -> s = "".
Proof. destruct s; [reflexivity|discriminate]. Qed.

(** X11. Whenever [asr_node] returns, in any environment, the upload has
    yielded a task id, the TXT endpoint of that task has answered 200 with
    a non-empty body within the 300 attempts, and the stage has ended by
    writing that body to [out/<task id>.txt] and, when the timed
    transcript is not empty, the timed transcript to [out/<task id>.srt].
    The update holds exactly the two transcripts. *)
Theorem asr_node_returns_plain_text (env : Env) (state : MeetingState)
    (tr tr' : Trace) (update : MeetingState) :
  asr_node env state tr = (Ok update, tr') ->
  exists audio_path task_id N txt_text srt_text srt_polls,
    state !! "audio_path" = Some audio_path /\
    upload_ok env tr audio_path task_id /\
    (N < 300)%nat /\
    ready_after env (txt_url task_id)
      (count (is_get_of (txt_url task_id)) tr) N txt_text /\
    txt_text <> "" /\
    poll_events (srt_url task_id) srt_polls /\
    update = <["txt_content" := txt_text]> (<["srt_content" := srt_text]> ∅) /\
    tr' = tr ++ [EvMkdir "out"; EvOpen audio_path;
                 EvPost ASR_CREATE_URL audio_path]
             ++ polls (txt_url task_id) N ++ [EvGet (txt_url task_id)]
             ++ srt_polls
             ++ EvWriteText "out" (task_id +:+ ".txt") txt_text
                :: (if truthy srt_text
                    then [EvWriteText "out" (task_id +:+ ".srt") srt_text]
                    else []).
Proof.
  intros H. pose proof H as H0. unfold asr_node in H.
  destruct (state !! "audio_path") as [audio_path|] eqn:Hst; [|discriminate H].
  rewrite (bind_ok _ _ tr (tr ++ [EvMkdir "out"]) tt) in H by reflexivity.
  destruct (asr_create_task env audio_path (tr ++ [EvMkdir "out"]))
    as [[task_id|e] tr0] eqn:Hc;
    [|rewrite (bind_raise _ _ _ _ _ Hc) in H; discriminate H].
  pose proof (asr_create_task_inv env _ _ _ _ Hc) as Hup'.
  assert (Hup : upload_ok env tr audio_path task_id).
  { destruct Hup' as [Ho Hp]. rewrite count_snoc in Ho, Hp.
    cbn [is_open is_post] in Ho, Hp. rewrite Nat.add_0_r in Ho, Hp.
    split; assumption. }
  pose proof (asr_create_task_ok env _ _ _ Hup') as Hc'.
  rewrite Hc in Hc'. injection Hc' as ->.
  rewrite (bind_ok _ _ _ _ _ Hc) in H.
  destruct (wait_loop_cases env (txt_url task_id) 300
              ((tr ++ [EvMkdir "out"])
               ++ [EvOpen audio_path; EvPost ASR_CREATE_URL audio_path]))
    as [[_ He]|(N & txt_text & HN & Hready & He)].
  { assert (Hw : wait_download env (txt_url task_id) "TXT" 300
                   ((tr ++ [EvMkdir "out"])
                    ++ [EvOpen audio_path; EvPost ASR_CREATE_URL audio_path])
                 = (Ok "", ((tr ++ [EvMkdir "out"])
                            ++ [EvOpen audio_path;
                                EvPost ASR_CREATE_URL audio_path])
                           ++ polls (txt_url task_id) 300)) by exact He.
    rewrite (bind_ok _ _ _ _ _ Hw) in H. discriminate H. }
  assert (Hw : wait_download env (txt_url task_id) "TXT" 300
                 ((tr ++ [EvMkdir "out"])
                  ++ [EvOpen audio_path; EvPost ASR_CREATE_URL audio_path])
               = (Ok txt_text,
                  ((tr ++ [EvMkdir "out"])
                   ++ [EvOpen audio_path; EvPost ASR_CREATE_URL audio_path])
                  ++ polls (txt_url task_id) N ++ [EvGet (txt_url task_id)]))
    by exact He.
  rewrite (bind_ok _ _ _ _ _ Hw) in H.
  destruct (truthy txt_text) eqn:Ht; [|discriminate H].
  apply truthy_true in Ht.
  rewrite !count_app in Hready. cbn [count is_get_of] in Hready.
  rewrite !Nat.add_0_r in Hready.
  destruct (asr_node_success env state tr audio_path task_id N txt_text
              Hst Hup HN Hready Ht) as (srt_text & ext & _ & Hext & Hasr).
  rewrite Hasr in H0. injection H0 as <- <-.
  exists audio_path, task_id, N, txt_text, srt_text, ext.
  repeat (split; [assumption || reflexivity|]).
  unfold transcribed_prefix, transcript_writes.
  rewrite <- !app_assoc. reflexivity.
Qed.

Lemma asr_node_returns_plain_text_witness :
  exists audio_path task_id N txt_text srt_text srt_polls,
    initial_state !! "audio_path" = Some audio_path /\
    upload_ok env_quick [] audio_path task_id /\
    (N < 300)%nat /\
    ready_after env_quick (txt_url task_id)
      (count (is_get_of (txt_url task_id)) []) N txt_text /\
    txt_text <> "" /\
    poll_events (srt_url task_id) srt_polls /\
    <["txt_content" := "ABC"]> (<["srt_content" := "00:00:00 ABC"]> ∅)
    = <["txt_content" := txt_text]>
        (<["srt_content" := srt_text]> (∅ : MeetingState)) /\
    [EvMkdir "out"; EvOpen audio_path_str;
     EvPost ASR_CREATE_URL audio_path_str;
     EvGet (txt_url "T1"); EvGet (srt_url "T1");
     EvWriteText "out" "T1.txt" "ABC";
     EvWriteText "out" "T1.srt" "00:00:00 ABC"]
    = [] ++ [EvMkdir "out"; EvOpen audio_path;
             EvPost ASR_CREATE_URL audio_path]
         ++ polls (txt_url task_id) N ++ [EvGet (txt_url task_id)]
         ++ srt_polls
         ++ EvWriteText "out" (task_id +:+ ".txt") txt_text
            :: (if truthy srt_text
                then [EvWriteText "out" (task_id +:+ ".srt") srt_text]
                else []).
Proof.
  apply (asr_node_returns_plain_text env_quick initial_state []).
  vm_compute; reflexivity.
Defined.

(** ** More about whole runs *)

Section MoreRuns.

Variable env : Env.

(** The complete run of C1, with its stream of updates and its trace. *)
Lemma run_completes (state : MeetingState) (tr : Trace)
    (audio_path task_id : string) (N : nat) (body : string) :
  state !! "audio_path" = Some audio_path ->
  upload_ok env tr audio_path task_id ->
  (N < 300)%nat ->
  ready_after env (txt_url task_id) (count (is_get_of (txt_url task_id)) tr) N body ->
  body <> "" ->
  generation_succeeds env tr body ->
  exists srt_text ext minutes summary,
    poll_events (srt_url task_id) ext /\
    env_generate env (count is_generate tr) MINUTES_SYSTEM_PROMPT
      (if truthy srt_text then srt_text else body) = GenText minutes /\
    env_generate env (S (count is_generate tr)) SUMMARY_SYSTEM_PROMPT body
      = GenText summary /\
    run (build_meeting_graph env) state tr
    = (([("asr", <["txt_content" := body]> (<["srt_content" := srt_text]> ∅));
         ("minutes_taker", <["detailed_minutes" := minutes]> ∅);
         ("summarizer", <["summary" := summary]> ∅);
         ("writer",
          <["final_report" :=
             compose_report summary minutes
               (env_strftime env (count is_strftime tr) STRFTIME_FORMAT)]> ∅)],
        Ok (<["final_report" :=
               compose_report summary minutes
                 (env_strftime env (count is_strftime tr) STRFTIME_FORMAT)]> ∅
            ∪ (<["summary" := summary]> ∅
            ∪ (<["detailed_minutes" := minutes]> ∅
            ∪ (<["txt_content" := body]> (<["srt_content" := srt_text]> ∅)
            ∪ read_input (build_meeting_graph env) state))))),
       (transcribed_prefix tr audio_path task_id N ++ ext
        ++ transcript_writes task_id body srt_text)
       ++ [EvGenerate MINUTES_SYSTEM_PROMPT
             (if truthy srt_text then srt_text else body);
           EvGenerate SUMMARY_SYSTEM_PROMPT body;
           EvStrftime STRFTIME_FORMAT]).
Proof.
  intros Hst Hup HN Hready Hbody [Hgen1 Hgen2].
  destruct (asr_node_success env state tr audio_path task_id N body
              Hst Hup HN Hready Hbody) as (srt_text & ext & _ & Hext & Hasr).
  destruct (Hgen1 (if truthy srt_text then srt_text else body)) as [minutes Hm].
  destruct Hgen2 as [summary Hs].
  exists srt_text, ext, minutes, summary.
  split; [exact Hext|]. split; [exact Hm|]. split; [exact Hs|].
  assert (Hcount : count is_generate
                     (transcribed_prefix tr audio_path task_id N ++ ext
                      ++ transcript_writes task_id body srt_text)
                   = count is_generate tr)
    by (apply asr_trace_count; auto).
  assert (Hclock : count is_strftime
                     (transcribed_prefix tr audio_path task_id N ++ ext
                      ++ transcript_writes task_id body srt_text)
                   = count is_strftime tr)
    by (apply asr_trace_count; auto).
  rewrite <- Hcount in Hm, Hs.
  pose proof (run_after_transcribe env state tr _ body srt_text minutes summary
                Hasr Hm Hs) as Hrun.
  cbv zeta in Hrun. rewrite Hclock in Hrun. exact Hrun.
Qed.

End MoreRuns.

(** X12. A complete run visits the four stages in the fixed order asr,
    minutes_taker, summarizer, writer.  Every request and every transcript
    file comes before the first generation call; the run then ends with
    the minutes call, the summary call and one clock reading, in that
    order. *)
Theorem run_stage_order (env : Env) (state : MeetingState)
    (tr : Trace) (audio_path task_id : string) (N : nat) (body : string) :
  state !! "audio_path" = Some audio_path ->
  upload_ok env tr audio_path task_id ->
  (N < 300)%nat ->
  ready_after env (txt_url task_id) (count (is_get_of (txt_url task_id)) tr) N body ->
  body <> "" ->
  generation_succeeds env tr body ->
  exists yielded before content,
    stream (build_meeting_graph env) state tr
    = (Ok yielded,
       tr ++ before
       ++ [EvGenerate MINUTES_SYSTEM_PROMPT content;
           EvGenerate SUMMARY_SYSTEM_PROMPT body;
           EvStrftime STRFTIME_FORMAT]) /\
    List.map fst yielded = ["asr"; "minutes_taker"; "summarizer"; "writer"] /\
    count is_generate before = O /\
    count is_strftime before = O.
Proof.
  intros Hst Hup HN Hready Hbody Hgen.
  destruct (run_completes env state tr audio_path task_id N body
              Hst Hup HN Hready Hbody Hgen)
    as (srt_text & ext & minutes & summary & Hext & _ & _ & Hrun).
  eexists _,
    ([EvMkdir "out"; EvOpen audio_path; EvPost ASR_CREATE_URL audio_path]
     ++ polls (txt_url task_id) N ++ [EvGet (txt_url task_id)] ++ ext
     ++ transcript_writes task_id body srt_text), _.
  unfold stream. rewrite Hrun. split.
  { unfold transcribed_prefix. rewrite <- !app_assoc. reflexivity. }
  split; [reflexivity|]. split.
  - rewrite !count_app, (count_polls_other is_generate) by reflexivity.
    rewrite (poll_events_count _ _ _ Hext) by reflexivity.
    rewrite transcript_writes_count by reflexivity. reflexivity.
  - rewrite !count_app, (count_polls_other is_strftime) by reflexivity.
    rewrite (poll_events_count _ _ _ Hext) by reflexivity.
    rewrite transcript_writes_count by reflexivity. reflexivity.
Qed.

Lemma run_stage_order_witness :
  exists yielded before content,
    stream (build_meeting_graph env_retry) initial_state []
    = (Ok yielded,
       [] ++ before
       ++ [EvGenerate MINUTES_SYSTEM_PROMPT content;
           EvGenerate SUMMARY_SYSTEM_PROMPT "ABC";
           EvStrftime STRFTIME_FORMAT]) /\
    List.map fst yielded = ["asr"; "minutes_taker"; "summarizer"; "writer"] /\
    count is_generate before = O /\
    count is_strftime before = O.
Proof.
  apply (run_stage_order env_retry initial_state [] audio_path_str "T1" 2 "ABC").
  - vm_compute; reflexivity.
  - apply scenario_upload_ok.
  - lia.
  - apply env_retry_txt_ready; reflexivity.
  - discriminate.
  - apply scenario_generation_succeeds.
Defined.



(** ** Generation failures *)

Lemma chain_invoke_raises (env : Env) (system content msg : string) (tr : Trace) :
  env_generate env (count is_generate tr) system content = GenRaises msg ->
  chain_invoke env system content tr
  = (Raise (GenerationError msg), tr ++ [EvGenerate system content]).
Proof. intros H. unfold chain_invoke. rewrite H. reflexivity. Qed.

(** X14. When the call for the detailed minutes fails, the run fails with
    that error after the Transcribe stage has completed: the generator is
    called once and not again, the summary is never asked for and no
    report is composed.  The transcripts are on disk by then. *)
Theorem run_minutes_generation_fails (env : Env) (state : MeetingState)
    (tr : Trace) (audio_path task_id : string) (N : nat) (body msg : string) :
  state !! "audio_path" = Some audio_path ->
  upload_ok env tr audio_path task_id ->
  (N < 300)%nat ->
  ready_after env (txt_url task_id) (count (is_get_of (txt_url task_id)) tr) N body ->
  body <> "" ->
  (forall content,
     env_generate env (count is_generate tr) MINUTES_SYSTEM_PROMPT content
     = GenRaises msg) ->
  exists update tr',
    run (build_meeting_graph env) state tr
    = (([("asr", update)], Raise (GenerationError msg)), tr') /\
    count is_generate tr' = S (count is_generate tr) /\
    count is_strftime tr' = count is_strftime tr /\
    In (EvWriteText "out" (task_id +:+ ".txt") body) tr'.
Proof.
  intros Hst Hup HN Hready Hbody Hfail.
  destruct (asr_node_success env state tr audio_path task_id N body
              Hst Hup HN Hready Hbody) as (srt_text & ext & _ & Hext & Hasr).
  set (trA := transcribed_prefix tr audio_path task_id N ++ ext
              ++ transcript_writes task_id body srt_text) in *.
  assert (Hcount : count is_generate trA = count is_generate tr)
    by (apply asr_trace_count; auto).
  assert (Hclock : count is_strftime trA = count is_strftime tr)
    by (apply asr_trace_count; auto).
  set (u1 := <["txt_content" := body]> (<["srt_content" := srt_text]> ∅)) in *.
  assert (H2 : minutes_taker_node env (u1 ∪ read_input (build_meeting_graph env) state) trA
               = (Raise (GenerationError msg),
                  trA ++ [EvGenerate MINUTES_SYSTEM_PROMPT
                            (minutes_input (u1 ∪ read_input (build_meeting_graph env) state))])).
  { unfold minutes_taker_node.
    apply bind_raise. apply chain_invoke_raises. rewrite Hcount. apply Hfail. }
  exists u1, (trA ++ [EvGenerate MINUTES_SYSTEM_PROMPT (minutes_input (u1 ∪ read_input (build_meeting_graph env) state))]).
  split; [|split; [|split]].
  - rewrite <- (asr_node_read_input env state) in Hasr.
    unfold run. change (entry_point (build_meeting_graph env)) with (Some "asr").
    unfold recursion_limit.
    rewrite (run_from_step (build_meeting_graph env) _ "asr" "minutes_taker"
               (asr_node env) _ _ _ _ ltac:(discriminate) eq_refl eq_refl Hasr).
    rewrite (run_from_raise (build_meeting_graph env) _ "minutes_taker"
               (minutes_taker_node env) _ _ _ _
               ltac:(discriminate) eq_refl H2).
    reflexivity.
  - rewrite count_snoc, Hcount. cbn [is_generate]. lia.
  - rewrite count_snoc, Hclock. cbn [is_strftime]. lia.
  - apply in_or_app. left. unfold trA. apply in_or_app. right.
    apply in_or_app. right. left. reflexivity.
Qed.

Lemma run_minutes_generation_fails_witness :
  exists update tr',
    run (build_meeting_graph env_minutes_fail) initial_state []
    = (([("asr", update)], Raise (GenerationError "503 Service Unavailable")),
       tr') /\
    count is_generate tr' = S (count is_generate []) /\
    count is_strftime tr' = count is_strftime [] /\
    In (EvWriteText "out" ("T1" +:+ ".txt") "ABC") tr'.
Proof.
  apply (run_minutes_generation_fails env_minutes_fail initial_state []
           audio_path_str "T1" 0 "ABC" "503 Service Unavailable").
  - vm_compute; reflexivity.
  - split; reflexivity.
  - lia.
  - split; [intros i Hi; lia|reflexivity].
  - discriminate.
  - intros content. reflexivity.
Defined.

(** X15. When the call for the summary fails, the run fails with that
    error after the first two stages have completed: the generator has
    been called twice, the minutes it produced are dropped with the run,
    and [writer_node] never runs. *)
Theorem run_summary_generation_fails (env : Env) (state : MeetingState)
    (tr : Trace) (audio_path task_id : string) (N : nat) (body msg : string) :
  state !! "audio_path" = Some audio_path ->
  upload_ok env tr audio_path task_id ->
  (N < 300)%nat ->
  ready_after env (txt_url task_id) (count (is_get_of (txt_url task_id)) tr) N body ->
  body <> "" ->
  (forall content, exists text,
     env_generate env (count is_generate tr) MINUTES_SYSTEM_PROMPT content
     = GenText text) ->
  env_generate env (S (count is_generate tr)) SUMMARY_SYSTEM_PROMPT body
  = GenRaises msg ->
  exists update minutes tr',
    run (build_meeting_graph env) state tr
    = (([("asr", update);
         ("minutes_taker", <["detailed_minutes" := minutes]> ∅)],
        Raise (GenerationError msg)), tr') /\
    count is_generate tr' = S (S (count is_generate tr)) /\
    count is_strftime tr' = count is_strftime tr.
Proof.
  intros Hst Hup HN Hready Hbody Hgen Hfail.
  destruct (asr_node_success env state tr audio_path task_id N body
              Hst Hup HN Hready Hbody) as (srt_text & ext & _ & Hext & Hasr).
  set (trA := transcribed_prefix tr audio_path task_id N ++ ext
              ++ transcript_writes task_id body srt_text) in *.
  assert (Hcount : count is_generate trA = count is_generate tr)
    by (apply asr_trace_count; auto).
  assert (Hclock : count is_strftime trA = count is_strftime tr)
    by (apply asr_trace_count; auto).
  set (u1 := <["txt_content" := body]> (<["srt_content" := srt_text]> ∅)) in *.
  destruct (Hgen (minutes_input (u1 ∪ read_input (build_meeting_graph env) state))) as [minutes Hm].
  rewrite <- Hcount in Hm.
  pose proof (minutes_taker_node_ok env (u1 ∪ read_input (build_meeting_graph env) state) trA minutes Hm) as H2.
  set (trB := trA ++ [EvGenerate MINUTES_SYSTEM_PROMPT
                        (minutes_input (u1 ∪ read_input (build_meeting_graph env) state))]) in *.
  set (u2 := <["detailed_minutes" := minutes]> ∅) in *.
  assert (Htxt2 : get_or_empty (u2 ∪ (u1 ∪ read_input (build_meeting_graph env) state)) "txt_content" = body).
  { unfold u2. rewrite get_update_miss by (apply single_update_miss; discriminate).
    apply asr_update_txt. }
  assert (H3 : summarizer_node env (u2 ∪ (u1 ∪ read_input (build_meeting_graph env) state)) trB
               = (Raise (GenerationError msg),
                  trB ++ [EvGenerate SUMMARY_SYSTEM_PROMPT body])).
  { unfold summarizer_node. rewrite Htxt2.
    apply bind_raise. apply chain_invoke_raises.
    unfold trB. rewrite count_snoc, Hcount. cbn [is_generate].
    replace (count is_generate tr + 1)%nat with (S (count is_generate tr)) by lia.
    exact Hfail. }
  exists u1, minutes, (trB ++ [EvGenerate SUMMARY_SYSTEM_PROMPT body]).
  split; [|split].
  - rewrite <- (asr_node_read_input env state) in Hasr.
    unfold run. change (entry_point (build_meeting_graph env)) with (Some "asr").
    unfold recursion_limit.
    rewrite (run_from_step (build_meeting_graph env) _ "asr" "minutes_taker"
               (asr_node env) _ _ _ _ ltac:(discriminate) eq_refl eq_refl Hasr).
    rewrite (run_from_step (build_meeting_graph env) _ "minutes_taker"
               "summarizer" (minutes_taker_node env) _ _ _ _
               ltac:(discriminate) eq_refl eq_refl H2).
    rewrite (run_from_raise (build_meeting_graph env) _ "summarizer"
               (summarizer_node env) _ _ _ _
               ltac:(discriminate) eq_refl H3).
    reflexivity.
  - unfold trB. rewrite !count_snoc, Hcount. cbn [is_generate]. lia.
  - unfold trB. rewrite !count_snoc, Hclock. cbn [is_strftime]. lia.
Qed.

Lemma run_summary_generation_fails_witness :
  exists update minutes tr',
    run (build_meeting_graph env_summary_fail) initial_state []
    = (([("asr", update);
         ("minutes_taker", <["detailed_minutes" := minutes]> ∅)],
        Raise (GenerationError "503 Service Unavailable")), tr') /\
    count is_generate tr' = S (S (count is_generate [])) /\
    count is_strftime tr' = count is_strftime [].
Proof.
  apply (run_summary_generation_fails env_summary_fail initial_state []
           audio_path_str "T1" 0 "ABC" "503 Service Unavailable").
  - vm_compute; reflexivity.
  - split; reflexivity.
  - lia.
  - split; [intros i Hi; lia|reflexivity].
  - discriminate.
  - intros content. eexists. reflexivity.
  - reflexivity.
Defined.

(** ** The entry point [main] *)

Lemma initial_state_audio_path :
  initial_state !! "audio_path" = Some audio_path_str.
Proof. vm_compute; reflexivity. Qed.


(** X16. When the audio file does not exist, [main] returns normally
    right after the existence check: the graph is not run, nothing is
    uploaded and no report file is written. *)
Theorem main_without_audio_file (env : Env) (tr : Trace) :
  env_exists env (count is_exists tr) audio_path_str = false ->
  main env tr = (Ok tt, tr ++ [EvExists audio_path_str]).
Proof.
  intros H. unfold main, bind, path_exists. rewrite H. reflexivity.
Qed.

Lemma main_without_audio_file_witness :
  main env_no_audio [] = (Ok tt, [] ++ [EvExists audio_path_str]).
Proof.
  apply (main_without_audio_file env_no_audio []). reflexivity.
Defined.

(** X17. When the plain-text poll of the first pass gives up, [main] ends
    with the [TimeoutError]: there is no second pass, the audio has been
    uploaded once, and no report file is written. *)
Theorem main_plain_timeout (env : Env) (tr : Trace) (task_id : string) :
  env_exists env (count is_exists tr) audio_path_str = true ->
  upload_ok env tr audio_path_str task_id ->
  never_ready env (txt_url task_id) (count (is_get_of (txt_url task_id)) tr) 300 ->
  main env tr
  = (Raise (TimeoutError TXT_TIMEOUT_MESSAGE),
     tr ++ [EvExists audio_path_str; EvMkdir "out"; EvOpen audio_path_str;
            EvPost ASR_CREATE_URL audio_path_str]
        ++ polls (txt_url task_id) 300).
Proof.
  intros Hex [Hopen Hpost] Hnever.
  assert (Hasr : asr_node env initial_state (tr ++ [EvExists audio_path_str])
                 = (Raise (TimeoutError TXT_TIMEOUT_MESSAGE),
                    (tr ++ [EvExists audio_path_str])
                    ++ [EvMkdir "out"; EvOpen audio_path_str;
                        EvPost ASR_CREATE_URL audio_path_str]
                    ++ polls (txt_url task_id) 300)).
  { apply (asr_node_txt_timeout env initial_state _ audio_path_str task_id).
    - apply initial_state_audio_path.
    - split; rewrite count_snoc; cbn [is_open is_post];
        rewrite Nat.add_0_r; assumption.
    - rewrite count_snoc. cbn [is_get_of]. rewrite Nat.add_0_r. exact Hnever. }
  pose proof (run_asr_raises env initial_state _ _ _ Hasr) as Hrun.
  assert (Hstream : stream (build_meeting_graph env) initial_state
                      (tr ++ [EvExists audio_path_str])
                    = (Raise (TimeoutError TXT_TIMEOUT_MESSAGE),
                       (tr ++ [EvExists audio_path_str])
                       ++ [EvMkdir "out"; EvOpen audio_path_str;
                           EvPost ASR_CREATE_URL audio_path_str]
                       ++ polls (txt_url task_id) 300))
    by (unfold stream; rewrite Hrun; reflexivity).
  unfold main.
  rewrite (bind_ok _ _ tr (tr ++ [EvExists audio_path_str]) true)
    by (unfold path_exists; rewrite Hex; reflexivity).
  cbn [negb].
  rewrite (bind_raise _ _ _ _ _ Hstream).
  rewrite <- app_assoc. reflexivity.
Qed.

Lemma main_plain_timeout_witness :
  main env_timeout []
  = (Raise (TimeoutError TXT_TIMEOUT_MESSAGE),
     [] ++ [EvExists audio_path_str; EvMkdir "out"; EvOpen audio_path_str;
            EvPost ASR_CREATE_URL audio_path_str]
        ++ polls (txt_url "T1") 300).
Proof.
  apply (main_plain_timeout env_timeout [] "T1").
  - reflexivity.
  - apply scenario_upload_ok.
  - apply never_200_never_ready.
Defined.


